(** * The Slack connector of opsdroid: webhook ingress, identity cache,
      outbound dispatch.

    A shallow embedding of [opsdroid/connector/slack/connector.py].

    Python values are a small JSON-like universe; the connector instance is a
    record; every method of [ConnectorSlack] is a computation in a state and
    exception monad which also records, in chronological order, the calls the
    method makes to its collaborators (the Slack web client, the event
    creator, the host's [parse], the router, the logger). *)

From stdpp Require Import gmap strings list fin_maps.
From Stdlib Require Import ZArith Ascii String.

#[local] Set Warnings "-register-all".
#[local] Open Scope string_scope.
#[local] Open Scope list_scope.

(** ** Python values *)

(** The values that travel through the connector: [None], integers (Python's
    [bool] is a subclass of [int], so [True] and [False] are [PInt 1] and
    [PInt 0]), strings, lists and string-keyed dicts.  On this universe
    Python's [==] is structural equality. *)
Inductive pyval :=
| PNone
| PInt (n : Z)
| PStr (s : string)
| PList (l : list pyval)
| PDict (d : gmap string pyval).

#[global] Instance pyval_eq_dec : EqDecision pyval.
Proof.
  refine (fix go (v1 v2 : pyval) {struct v1} : Decision (v1 = v2) :=
    let _ : EqDecision pyval := @go in
    match v1, v2 with
    | PNone, PNone => left _
    | PInt a, PInt b => cast_if (decide (a = b))
    | PStr a, PStr b => cast_if (decide (a = b))
    | PList a, PList b => cast_if (decide (a = b))
    | PDict a, PDict b => cast_if (decide (a = b))
    | _, _ => right _
    end); abstract congruence.
Defined.

(** [a == b] and [a != b]. *)
Definition py_eq (a b : pyval) : bool := bool_decide (a = b).
Definition py_ne (a b : pyval) : bool := negb (py_eq a b).

(** [isinstance(v, dict)]. *)
Definition is_dict (v : pyval) : bool :=
  match v with PDict _ => true | _ => false end.

(** ** Strings *)

(** The empty string and the double quote, the latter for JSON text. *)
Definition empty_str : string := EmptyString.
Definition dquote : ascii := ascii_of_nat 34.

(** [s.startswith(p)] on character lists. *)
Fixpoint starts_with (p s : list ascii) : bool :=
  match p, s with
  | [], _ => true
  | _ :: _, [] => false
  | a :: p', b :: s' => if decide (a = b) then starts_with p' s' else false
  end.

(** [p in s] for two strings: [p] occurs somewhere in [s]. *)
Fixpoint occurs_in (p s : list ascii) : bool :=
  starts_with p s ||
  match s with
  | [] => false
  | _ :: s' => occurs_in p s'
  end.

Definition str_contains (p s : string) : bool :=
  occurs_in (list_ascii_of_string p) (list_ascii_of_string s).

(** [str.replace(old, new)]: every non-overlapping occurrence of [old], found
    from left to right, becomes [new].  [skip] counts the characters of an
    occurrence already replaced that are still to be jumped over.  [old] is
    never empty where the connector calls it. *)
Fixpoint replace_from (old new : list ascii) (skip : nat) (s : list ascii)
  : list ascii :=
  match s with
  | [] => []
  | c :: s' =>
      match skip with
      | S k => replace_from old new k s'
      | O =>
          if starts_with old s
          then new ++ replace_from old new (Nat.pred (List.length old)) s'
          else c :: replace_from old new 0 s'
      end
  end.

Definition str_replace (old new s : string) : string :=
  string_of_list_ascii
    (replace_from (list_ascii_of_string old) (list_ascii_of_string new) 0
       (list_ascii_of_string s)).

(** ** Exceptions and outcomes *)

Inductive exn :=
| SlackApiError (text : string)   (* [str(error)] *)
| KeyError (key : string)
| TypeError
| AttributeError
| OtherError (name : string).     (* any other exception class *)

Inductive outcome (A : Type) :=
| Ret (a : A)
| Raise (e : exn).
Arguments Ret {A} a.
Arguments Raise {A} e.

(** [k in v] for a string [k]: key membership in a dict, element membership
    in a list, substring of a string; [None] and integers are not iterable. *)
Definition py_in (k : string) (v : pyval) : outcome bool :=
  match v with
  | PDict d => Ret (bool_decide (is_Some (d !! k)))
  | PList l => Ret (bool_decide (PStr k ∈ l))
  | PStr s => Ret (str_contains k s)
  | PNone | PInt _ => Raise TypeError
  end.

(** [v[k]] for a string [k]. *)
Definition py_getitem (v : pyval) (k : string) : outcome pyval :=
  match v with
  | PDict d =>
      match d !! k with
      | Some x => Ret x
      | None => Raise (KeyError k)
      end
  | _ => Raise TypeError
  end.

(** ** Regular expressions, as far as [replace_usernames] needs them *)

(** A backtracking matcher with Python's priorities: repetition and option
    are greedy and give characters back only when the rest of the pattern
    fails.  There is one capturing group. *)
Inductive regex :=
| Chr (c : ascii)                   (* a literal character *)
| PlusSet (p : ascii -> bool)       (* [X+] for a character set [X] *)
| Seq (r1 r2 : regex)
| Opt (r : regex)                   (* [(?:r)?] *)
| Group (r : regex).                (* [(r)], group 1 *)

Fixpoint plus_set {R} (p : ascii -> bool) (s : list ascii)
    (k : list ascii -> option R) : option R :=
  match s with
  | c :: s' =>
      if p c
      then match plus_set p s' k with
           | Some r => Some r
           | None => k s'
           end
      else None
  | [] => None
  end.

Fixpoint re_match {R} (r : regex) (s : list ascii) (g : option (list ascii))
    (k : list ascii -> option (list ascii) -> option R) : option R :=
  match r with
  | Chr c =>
      match s with
      | c' :: s' => if decide (c = c') then k s' g else None
      | [] => None
      end
  | PlusSet p => plus_set p s (fun s' => k s' g)
  | Seq r1 r2 => re_match r1 s g (fun s' g' => re_match r2 s' g' k)
  | Opt r1 =>
      match re_match r1 s g k with
      | Some x => Some x
      | None => k s g
      end
  | Group r1 =>
      re_match r1 s g
        (fun s' _ => k s' (Some (take (List.length s - List.length s') s)))
  end.

(** The match of [r] that starts at the head of [s], if any: the text of
    group 1 and the number of characters matched. *)
Definition match_at (r : regex) (s : list ascii) : option (list ascii * nat) :=
  re_match r s None
    (fun s' g => Some (default [] g, List.length s - List.length s')).

(** [re.findall(r, s)] for a pattern with one group that never matches the
    empty string: the group's text for every match, scanning left to right
    and resuming after each match. *)
Fixpoint findall_from (r : regex) (skip : nat) (s : list ascii)
  : list (list ascii) :=
  match s with
  | [] => []
  | _ :: s' =>
      match skip with
      | S k => findall_from r k s'
      | O =>
          match match_at r s with
          | Some (g, n) => g :: findall_from r (Nat.pred n) s'
          | None => findall_from r 0 s'
          end
      end
  end.

Definition re_findall (r : regex) (s : string) : list string :=
  string_of_list_ascii <$> findall_from r 0 (list_ascii_of_string s).

(** [[A-Z0-9]] and [.] (every character but the line feed). *)
Definition upper_or_digit (c : ascii) : bool :=
  let n := nat_of_ascii c in
  (Nat.leb 65 n && Nat.leb n 90) || (Nat.leb 48 n && Nat.leb n 57).

Definition not_newline (c : ascii) : bool :=
  negb (Nat.eqb (nat_of_ascii c) 10).

(** [r"\<\@([A-Z0-9]+)(?:\|.+)?\>"] *)
Definition mention_re : regex :=
  Seq (Chr "<") (Seq (Chr "@")
    (Seq (Group (PlusSet upper_or_digit))
      (Seq (Opt (Seq (Chr "|") (PlusSet not_newline)))
           (Chr ">")))).

(** ** Events *)

(** Modelled from the spec: the event classes ([opsdroid.events] and
    [opsdroid.connector.slack.events]) are declared outside the connector's
    file.  A linked event is "event-id + optional raw payload snapshot": the
    two attributes the connector reads from it. *)
Record linked := Linked {
  event_id : pyval;
  raw_event : option (gmap string pyval);
}.

(** The outgoing event classes with the attributes their handlers read.
    [Message], [Reaction], [PinMessage] and [UnpinMessage] link to an event
    (or to nothing); [EditedMessage] and [EditedBlocks] carry the timestamp
    of the message they edit. *)
Inductive Event :=
| Message (text target : pyval) (linked_event : option linked)
| EditedMessage (text target linked_event : pyval)
| Blocks (blocks target : pyval)
| EditedBlocks (blocks target linked_event : pyval)
| Reaction (emoji : string) (target : pyval) (linked_event : option linked)
| NewRoom (name : pyval)
| RoomName (name target : pyval)
| JoinRoom (target : pyval)
| UserInvite (user user_id target : pyval)
| RoomDescription (description target : pyval)
| PinMessage (target : pyval) (linked_event : option linked)
| UnpinMessage (target : pyval) (linked_event : option linked).

(** What the event creator hands back, and so what the variable [event] of
    the webhook handler holds: nothing, one event, or a list of events. *)
Inductive pyobj :=
| ObjNone
| ObjEvent (e : Event)
| ObjList (l : list Event).

(** ** The connector and its collaborators *)

(** The attributes of a [ConnectorSlack] instance. *)
Record ConnectorSlack := Connector {
  default_target : string;
  icon_emoji : string;
  token : string;
  start_thread : bool;
  bot_name : string;
  auth_info : pyval;
  user_info : pyval;
  bot_id : pyval;
  known_users : gmap string pyval;
}.

(** The three assignments [connect] makes. *)
Definition set_auth_info (v : pyval) (self : ConnectorSlack) : ConnectorSlack :=
  {| default_target := default_target self; icon_emoji := icon_emoji self;
     token := token self; start_thread := start_thread self;
     bot_name := bot_name self; auth_info := v; user_info := user_info self;
     bot_id := bot_id self; known_users := known_users self |}.

Definition set_user_info (v : pyval) (self : ConnectorSlack) : ConnectorSlack :=
  {| default_target := default_target self; icon_emoji := icon_emoji self;
     token := token self; start_thread := start_thread self;
     bot_name := bot_name self; auth_info := auth_info self; user_info := v;
     bot_id := bot_id self; known_users := known_users self |}.

Definition set_bot_id (v : pyval) (self : ConnectorSlack) : ConnectorSlack :=
  {| default_target := default_target self; icon_emoji := icon_emoji self;
     token := token self; start_thread := start_thread self;
     bot_name := bot_name self; auth_info := auth_info self;
     user_info := user_info self; bot_id := v; known_users := known_users self |}.

(** [self.known_users[userid] = v]. *)
Definition set_known_user (userid : string) (v : pyval) (self : ConnectorSlack)
  : ConnectorSlack :=
  {| default_target := default_target self; icon_emoji := icon_emoji self;
     token := token self; start_thread := start_thread self;
     bot_name := bot_name self; auth_info := auth_info self;
     user_info := user_info self; bot_id := bot_id self;
     known_users := <[userid := v]> (known_users self) |}.

Inductive level := LDebug | LInfo | LWarning | LError.

(** One entry per call that leaves the connector. *)
Inductive io :=
| Log (lvl : level) (msg : string)
| ApiCall (method http_verb : string) (data params : option (gmap string pyval))
| CreateEvent (payload : pyval)
| Parse (arg : pyobj)
| AddPost (path : string).

(** The collaborators.  What each returns (or raises) may depend on
    everything that happened before.  The event creator is built with a
    reference to the connector; its code lies outside the connector's file,
    and here it only answers with a value: it does not touch the instance. *)
Record Env := {
  slack_web_client :
    list io -> string -> string ->
    option (gmap string pyval) -> option (gmap string pyval) -> outcome pyval;
  event_creator : list io -> pyval -> outcome pyobj;
  opsdroid_parse : list io -> pyobj -> outcome unit;
  router_add_post : list io -> string -> outcome unit;
  demojize : string -> string;
  json_loads : string -> outcome pyval;
  json_dumps : pyval -> string;
}.

(** An inbound HTTP request: its content type and what [request.post()] and
    [request.json()] give. *)
Record Request := {
  content_type : string;
  post : outcome (gmap string string);
  json : outcome pyval;
}.

(** The two responses the handler builds. *)
Inductive http_response :=
| json_response (data : pyval)
| Response (text : string) (status : Z).

(** ** The monad of connector methods *)

(** A method runs on the connector instance and the calls made so far, and
    gives a value or an exception, the instance as it left it, and the calls
    extended by its own. *)
Definition M (A : Type) : Type :=
  ConnectorSlack -> list io -> outcome A * ConnectorSlack * list io.

Definition ret {A} (a : A) : M A := fun self tr => (Ret a, self, tr).

Definition raise {A} (e : exn) : M A := fun self tr => (Raise e, self, tr).

Definition bind {A B} (m : M A) (f : A -> M B) : M B :=
  fun self tr =>
    match m self tr with
    | (Ret a, self', tr') => f a self' tr'
    | (Raise e, self', tr') => (Raise e, self', tr')
    end.

Declare Scope conn_scope.
Delimit Scope conn_scope with conn.
Notation "x <- m ;; k" := (bind m (fun x => k))
  (at level 100, m at next level, right associativity) : conn_scope.
Notation "m ;; k" := (bind m (fun _ => k))
  (at level 100, right associativity) : conn_scope.
#[local] Open Scope conn_scope.

(** An outcome computed without effects. *)
Definition lift {A} (o : outcome A) : M A := fun self tr => (o, self, tr).

(** [self]. *)
Definition get_self : M ConnectorSlack := fun self tr => (Ret self, self, tr).

(** An assignment to attributes of [self]. *)
Definition set_self (f : ConnectorSlack -> ConnectorSlack) : M unit :=
  fun self tr => (Ret tt, f self, tr).

(** A call to a collaborator: recorded, then answered. *)
Definition call {A} (c : io) (answer : list io -> outcome A) : M A :=
  fun self tr => (answer tr, self, tr ++ [c]).

Definition log (lvl : level) (msg : string) : M unit :=
  call (Log lvl msg) (fun _ => Ret tt).

(** [try: body  except SlackApiError as error: handler]. *)
Definition try_except_SlackApiError {A} (body : M A) (handler : string -> M A)
  : M A :=
  fun self tr =>
    match body self tr with
    | (Raise (SlackApiError text), self', tr') => handler text self' tr'
    | r => r
    end.

(** [for x in xs: body], the loop variable threaded through [acc]. *)
Fixpoint for_each {A B} (xs : list A) (acc : B) (body : A -> B -> M B) : M B :=
  match xs with
  | [] => ret acc
  | x :: xs' => acc' <- body x acc ;; for_each xs' acc' body
  end.

(** The value of a Python function body that may [return] half-way. *)
Inductive flow (A B : Type) :=
| Return (a : A)
| Continue (b : B).
Arguments Return {A B} a.
Arguments Continue {A B} b.

Section Connector.

Context (env : Env).

(** [self.slack_web_client.api_call(method, http_verb=.., data=.., params=..)];
    the value is the response's data. *)
Definition api_call (method : string) (http_verb : string)
    (data params : option (gmap string pyval)) : M pyval :=
  call (ApiCall method http_verb data params)
       (fun tr => slack_web_client env tr method http_verb data params).

(** [self.slack_web_client.users_info(user=userid)], the client's wrapper
    around [api_call("users.info", http_verb="GET", params={"user": userid})]. *)
Definition users_info (userid : string) : M pyval :=
  api_call "users.info" "GET" None (Some {[ "user" := PStr userid ]}).

Definition create_event (payload : pyval) : M pyobj :=
  call (CreateEvent payload) (fun tr => event_creator env tr payload).

Definition parse (arg : pyobj) : M unit :=
  call (Parse arg) (fun tr => opsdroid_parse env tr arg).

Definition add_post (path : string) : M unit :=
  call (AddPost path) (fun tr => router_add_post env tr path).

(** ** [connect] *)

Definition connect : M unit :=
  log LInfo "Connecting to Slack." ;;
  try_except_SlackApiError
    (a <- api_call "auth.test" "POST" None None ;;
     set_self (set_auth_info a) ;;
     user_id <- lift (py_getitem a "user_id") ;;
     u <- api_call "users.info" "GET" None (Some {[ "user" := user_id ]}) ;;
     set_self (set_user_info u) ;;
     user <- lift (py_getitem u "user") ;;
     profile <- lift (py_getitem user "profile") ;;
     b <- lift (py_getitem profile "bot_id") ;;
     set_self (set_bot_id b) ;;
     add_post "/connector/slack" ;;
     log LDebug "Connected as %s." ;;
     log LDebug "Using icon %s." ;;
     log LDebug "Default room is %s." ;;
     log LInfo "Connected successfully.")
    (fun error =>
       log LError
         "Unable to connect to Slack due to %s.The Slack Connector will not be available.").

(** ** [slack_event_handler] *)

(** The payload of a request: the JSON text of the form field [payload], the
    JSON body, or the empty dict for any other content type. *)
Definition read_payload (request : Request) : outcome pyval :=
  if decide (content_type request = "application/x-www-form-urlencoded") then
    match post request with
    | Ret req =>
        match req !! "payload" with
        | Some p => json_loads env p
        | None => Raise (KeyError "payload")
        end
    | Raise e => Raise e
    end
  else if decide (content_type request = "application/json") then
    json request
  else Ret (PDict ∅).

Definition interactive_types : list pyval :=
  [PStr "block_actions"; PStr "message_action";
   PStr "view_submission"; PStr "view_closed"].

(** The block under [if "type" in payload:]; it returns the challenge
    response or leaves a value for [event]. *)
Definition classify (payload : pyval) : M (flow http_response pyobj) :=
  has_type <- lift (py_in "type" payload) ;;
  if has_type : bool then
    ty <- lift (py_getitem payload "type") ;;
    if py_eq ty (PStr "url_verification") then
      challenge <- lift (py_getitem payload "challenge") ;;
      ret (Return (json_response (PDict {[ "challenge" := challenge ]})))
    else if py_eq ty (PStr "event_callback") then
      inner <- lift (py_getitem payload "event") ;;
      event <- create_event inner ;;
      ret (Continue event)
    else if bool_decide (ty ∈ interactive_types) then
      event <- create_event payload ;;
      ret (Continue event)
    else
      log LInfo "Payload: {payload['type']} is not implemented. Event wont be parsed" ;;
      ret (Continue ObjNone)
  else ret (Continue ObjNone).

(** The two [isinstance] blocks.  The loop runs once per element [e] of the
    list, logs it, and calls [parse(event)]. *)
Definition forward (event : pyobj) : M unit :=
  match event with
  | ObjList l =>
      for_each l tt (fun e _ =>
        log LDebug "Got slack event: {e}" ;;
        parse event)
  | ObjEvent _ =>
      log LDebug "Got slack event: {event}" ;;
      parse event
  | ObjNone => ret tt
  end.

Definition slack_event_handler (request : Request) : M http_response :=
  payload <- lift (read_payload request) ;;
  c <- classify payload ;;
  match c with
  | Return response => ret response
  | Continue event =>
      forward event ;;
      ret (Response (json_dumps env (PStr "Received")) 200)
  end.

(** ** [lookup_username] and [replace_usernames] *)

Definition lookup_username (userid : string) : M pyval :=
  self <- get_self ;;
  match known_users self !! userid with
  | Some info => ret info
  | None =>
      response <- users_info userid ;;
      info <- lift (py_getitem response "user") ;;
      (if is_dict info then set_self (set_known_user userid info) else ret tt) ;;
      ret info
  end.

(** ["<@{userid}>".format(userid=userid)] *)
Definition mention_token (userid : string) : string :=
  "<@" +:+ userid +:+ ">".

Definition replace_usernames (message : string) : M string :=
  let userids := re_findall mention_re message in
  for_each userids message (fun userid message =>
    info <- lookup_username userid ;;
    name <- lift (py_getitem info "name") ;;
    match name with
    | PStr new => ret (str_replace (mention_token userid) new message)
    | _ => raise TypeError
    end).

(** ** The outbound handlers *)

(** The thread-linking block of [_send_message]: [data] with or without a
    ["thread_ts"] entry.  Testing ["thread_ts" in raw_event] on an event
    without raw payload is a [TypeError]. *)
Definition link_thread (linked_event : option linked)
    (data : gmap string pyval) : M (gmap string pyval) :=
  self <- get_self ;;
  match linked_event with
  | Some le =>
      match raw_event le with
      | None => raise TypeError
      | Some raw =>
          match raw !! "thread_ts" with
          | Some thread_ts =>
              if py_ne (event_id le) thread_ts
              then ret (<["thread_ts" := thread_ts]> data)
              else ret data
          | None =>
              if start_thread self
              then ret (<["thread_ts" := event_id le]> data)
              else ret data
          end
      end
  | None => ret data
  end.

Definition _send_message (text target : pyval) (linked_event : option linked)
  : M pyval :=
  log LDebug "Responding with: '%s' in room  %s." ;;
  self <- get_self ;;
  data <- link_thread linked_event
            {[ "channel" := target;
               "text" := text;
               "username" := PStr (bot_name self);
               "icon_emoji" := PStr (icon_emoji self) ]} ;;
  api_call "chat.postMessage" "POST" (Some data) None.

Definition _edit_message (text target linked_event : pyval) : M pyval :=
  log LDebug "Editing message with timestamp: '%s' to %s in room  %s." ;;
  api_call "chat.update" "POST"
    (Some {[ "channel" := target; "ts" := linked_event; "text" := text ]})
    None.

Definition _send_blocks (blocks target : pyval) : M pyval :=
  log LDebug "Responding with interactive blocks in room %s." ;;
  self <- get_self ;;
  api_call "chat.postMessage" "POST"
    (Some {[ "channel" := target;
             "username" := PStr (bot_name self);
             "blocks" := blocks;
             "icon_emoji" := PStr (icon_emoji self) ]})
    None.

Definition _edit_blocks (blocks target linked_event : pyval) : M pyval :=
  log LDebug "Editing interactive blocks with timestamp: '%s' in room  %s." ;;
  api_call "chat.update" "POST"
    (Some {[ "channel" := target; "ts" := linked_event; "blocks" := blocks ]})
    None.

(** [linked_event.event_id]; on [None] an [AttributeError]. *)
Definition linked_event_id (linked_event : option linked) : M pyval :=
  match linked_event with
  | Some le => ret (event_id le)
  | None => raise AttributeError
  end.

Definition send_reaction (emoji : string) (target : pyval)
    (linked_event : option linked) : M pyval :=
  let emoji := str_replace ":" empty_str (demojize env emoji) in
  log LDebug "Reacting with: %s." ;;
  try_except_SlackApiError
    (timestamp <- linked_event_id linked_event ;;
     api_call "reactions.add" "POST"
       (Some {[ "name" := PStr emoji;
                "channel" := target;
                "timestamp" := timestamp ]})
       None)
    (fun error =>
       if str_contains "invalid_name" error then
         log LWarning "Slack does not support the emoji %s." ;;
         ret PNone
       else raise (SlackApiError error)).

Definition _send_room_creation (name : pyval) : M pyval :=
  log LDebug "Creating room %s." ;;
  api_call "conversations.create" "POST" (Some {[ "name" := name ]}) None.

Definition _send_room_name_set (name target : pyval) : M pyval :=
  log LDebug "Renaming room %s to '%s'." ;;
  api_call "conversations.rename" "POST"
    (Some {[ "channel" := target; "name" := name ]}) None.

Definition _send_join_room (target : pyval) : M pyval :=
  api_call "conversations.join" "POST" (Some {[ "channel" := target ]}) None.

Definition _send_user_invitation (user user_id target : pyval) : M pyval :=
  log LDebug "Inviting user %s to room '%s'." ;;
  api_call "conversations.invite" "POST"
    (Some {[ "channel" := target; "users" := user_id ]}) None.

Definition _send_room_description (description target : pyval) : M pyval :=
  api_call "conversations.setTopic" "POST"
    (Some {[ "channel" := target; "topic" := description ]}) None.

Definition _send_pin_message (target : pyval) (linked_event : option linked)
  : M pyval :=
  timestamp <- linked_event_id linked_event ;;
  api_call "pins.add" "POST"
    (Some {[ "channel" := target; "timestamp" := timestamp ]}) None.

Definition _send_unpin_message (target : pyval) (linked_event : option linked)
  : M pyval :=
  timestamp <- linked_event_id linked_event ;;
  api_call "pins.remove" "POST"
    (Some {[ "channel" := target; "timestamp" := timestamp ]}) None.

(** Modelled from the spec: [Connector.send] and [register_event] belong to
    the base class, outside the connector's file.  "A total mapping from
    outgoing DomainEvent variant -> handler": the handler registered for the
    event's class. *)
Definition send (event : Event) : M pyval :=
  match event with
  | Message text target linked_event => _send_message text target linked_event
  | EditedMessage text target linked_event =>
      _edit_message text target linked_event
  | Blocks blocks target => _send_blocks blocks target
  | EditedBlocks blocks target linked_event =>
      _edit_blocks blocks target linked_event
  | Reaction emoji target linked_event => send_reaction emoji target linked_event
  | NewRoom name => _send_room_creation name
  | RoomName name target => _send_room_name_set name target
  | JoinRoom target => _send_join_room target
  | UserInvite user user_id target => _send_user_invitation user user_id target
  | RoomDescription description target =>
      _send_room_description description target
  | PinMessage target linked_event => _send_pin_message target linked_event
  | UnpinMessage target linked_event => _send_unpin_message target linked_event
  end.

End Connector.

(** ** Runs of the connector *)

(** The operations of a connector instance: the startup handshake, the two
    identity-cache methods, the outbound dispatch and the webhook handler. *)
Inductive op :=
| OpConnect
| OpLookupUsername (userid : string)
| OpReplaceUsernames (message : string)
| OpSend (event : Event)
| OpSlackEventHandler (request : Request).

(** One operation: the instance and the calls it leaves behind, whatever it
    returned or raised. *)
Definition run_op (env : Env) (o : op) (self : ConnectorSlack) (tr : list io)
  : ConnectorSlack * list io :=
  match o with
  | OpConnect => let '(_, self', tr') := connect env self tr in (self', tr')
  | OpLookupUsername userid =>
      let '(_, self', tr') := lookup_username env userid self tr in (self', tr')
  | OpReplaceUsernames message =>
      let '(_, self', tr') := replace_usernames env message self tr in (self', tr')
  | OpSend event => let '(_, self', tr') := send env event self tr in (self', tr')
  | OpSlackEventHandler request =>
      let '(_, self', tr') := slack_event_handler env request self tr in (self', tr')
  end.

(** A sequence of operations; the collaborators may answer differently from
    one operation to the next. *)
Fixpoint run_ops (ops : list (Env * op)) (self : ConnectorSlack) (tr : list io)
  : ConnectorSlack * list io :=
  match ops with
  | [] => (self, tr)
  | (env, o) :: ops' =>
      let '(self', tr') := run_op env o self tr in run_ops ops' self' tr'
  end.

(** The arguments of the calls to the host's [parse], in order. *)
Fixpoint parse_calls (tr : list io) : list pyobj :=
  match tr with
  | [] => []
  | Parse arg :: tr' => arg :: parse_calls tr'
  | _ :: tr' => parse_calls tr'
  end.

(** Two instances that differ at most in what [connect] assigns. *)
Definition same_but_identity (a b : ConnectorSlack) : Prop :=
  default_target a = default_target b /\ icon_emoji a = icon_emoji b /\
  token a = token b /\ start_thread a = start_thread b /\
  bot_name a = bot_name b /\ known_users a = known_users b.

(** Two instances that differ at most in the identity cache. *)
Definition same_but_cache (a b : ConnectorSlack) : Prop :=
  default_target a = default_target b /\ icon_emoji a = icon_emoji b /\
  token a = token b /\ start_thread a = start_thread b /\
  bot_name a = bot_name b /\ auth_info a = auth_info b /\
  user_info a = user_info b /\ bot_id a = bot_id b.

(** The thread marker of an outgoing message as the thread-linking rule is
    worded: the linked event's marker when it has one that differs from its
    own id; otherwise the linked event's id when threads are started and a
    linked event exists; otherwise none. *)
Definition worded_thread_ts (start : bool) (linked_event : option linked)
  : option pyval :=
  match linked_event with
  | Some le =>
      match raw_event le ≫= (fun raw => raw !! "thread_ts") with
      | Some thread_ts =>
          if py_ne (event_id le) thread_ts then Some thread_ts
          else if start then Some (event_id le) else None
      | None => if start then Some (event_id le) else None
      end
  | None => None
  end.

(** Two instances that differ at most in an identity cache that has only
    gained entries. *)
Definition cache_grows (a b : ConnectorSlack) : Prop :=
  same_but_cache a b /\ known_users a ⊆ known_users b.

(** A method keeps the instance within [R] of where it found it, whatever it
    returns or raises. *)
Definition preserves {A} (R : relation ConnectorSlack) (m : M A) : Prop :=
  forall self tr, R self (m self tr).1.2.

(** ** Overlapping lookups *)

(** [lookup_username] is a coroutine.  On a miss it is suspended at
    [await users_info(...)], after the membership test and before the store,
    and other coroutines of the connector run on the same instance until the
    platform has answered.  The request it has sent by then, and what it does
    when it is resumed with the answer: the store is not guarded by a second
    membership test. *)
Definition users_info_call (userid : string) : io :=
  ApiCall "users.info" "GET" None (Some {[ "user" := PStr userid ]}).

Definition lookup_username_resume (userid : string) (answer : outcome pyval)
  : M pyval :=
  response <- lift answer ;;
  info <- lift (py_getitem response "user") ;;
  (if is_dict info then set_self (set_known_user userid info) else ret tt) ;;
  ret info.

(** The steps of a run in which lookups overlap: a lookup runs up to its
    await; a suspended lookup is resumed with the platform's answer and runs
    to its end; an operation runs from start to end with nothing in
    between.  The lookups of a [replace_usernames] that is itself suspended
    are steps of the first two kinds. *)
Inductive action :=
| Begin (userid : string)
| Resume (userid : string) (answer : outcome pyval)
| Whole (env : Env) (o : op).

(** One of the suspended lookups of [userid], taken out of the waiting
    ones. *)
Fixpoint remove_first (userid : string) (waiting : list string)
  : option (list string) :=
  match waiting with
  | [] => None
  | w :: waiting' =>
      if decide (userid = w) then Some waiting'
      else cons w <$> remove_first userid waiting'
  end.

(** One step, on the instance, the identifiers of the suspended lookups and
    the calls made so far.  Only a suspended lookup can be resumed. *)
Definition act (a : action) (self : ConnectorSlack) (waiting : list string)
    (tr : list io) : option (ConnectorSlack * list string * list io) :=
  match a with
  | Begin userid =>
      match known_users self !! userid with
      | Some _ => Some (self, waiting, tr)
      | None => Some (self, userid :: waiting, tr ++ [users_info_call userid])
      end
  | Resume userid answer =>
      match remove_first userid waiting with
      | Some waiting' =>
          let '(_, self', tr') := lookup_username_resume userid answer self tr in
          Some (self', waiting', tr')
      | None => None
      end
  | Whole env o =>
      let '(self', tr') := run_op env o self tr in Some (self', waiting, tr')
  end.

Fixpoint interleave (schedule : list action) (self : ConnectorSlack)
    (waiting : list string) (tr : list io)
  : option (ConnectorSlack * list string * list io) :=
  match schedule with
  | [] => Some (self, waiting, tr)
  | a :: schedule' =>
      match act a self waiting tr with
      | Some (self', waiting', tr') => interleave schedule' self' waiting' tr'
      | None => None
      end
  end.

(** ** Sample instances, collaborators and requests *)

(** [json.dumps] on strings, enough for the samples. *)
Definition dumps_str (v : pyval) : string :=
  match v with
  | PStr s => String dquote (s +:+ String dquote EmptyString)
  | _ => "null"
  end.

(** Collaborators that always succeed and create no event. *)
Definition quiet_env : Env := {|
  slack_web_client := fun _ _ _ _ _ => Ret (PDict {[ "ok" := PInt 1 ]});
  event_creator := fun _ _ => Ret ObjNone;
  opsdroid_parse := fun _ _ => Ret tt;
  router_add_post := fun _ _ => Ret tt;
  demojize := fun s => s;
  json_loads := fun _ => Ret PNone;
  json_dumps := dumps_str;
|}.

(** The instance [__init__] builds from a configuration that gives only the
    token, and the same with threads started. *)
Definition fresh (start : bool) : ConnectorSlack := {|
  default_target := "#general";
  icon_emoji := ":robot_face:";
  token := "xoxb-token";
  start_thread := start;
  bot_name := "opsdroid";
  auth_info := PNone;
  user_info := PNone;
  bot_id := PNone;
  known_users := ∅;
|}.

(** An instance that has ["U1"] cached as "Test User". *)
Definition with_test_user : ConnectorSlack :=
  set_known_user "U1" (PDict {[ "name" := PStr "Test User" ]}) (fresh false).

(** A request with a JSON body. *)
Definition json_request (body : pyval) : Request := {|
  content_type := "application/json";
  post := Raise (OtherError "unused");
  json := Ret body;
|}.

Definition hello : Event := Message (PStr "hello") (PStr "room") None.
Definition world : Event := Message (PStr "world") (PStr "room") None.

(** An event creator that turns every payload into the two messages. *)
Definition two_events_env : Env := {|
  slack_web_client := slack_web_client quiet_env;
  event_creator := fun _ _ => Ret (ObjList [hello; world]);
  opsdroid_parse := opsdroid_parse quiet_env;
  router_add_post := router_add_post quiet_env;
  demojize := demojize quiet_env;
  json_loads := json_loads quiet_env;
  json_dumps := json_dumps quiet_env;
|}.

(** A host whose [parse] fails. *)
Definition failing_parse_env : Env := {|
  slack_web_client := slack_web_client quiet_env;
  event_creator := fun _ _ => Ret (ObjEvent hello);
  opsdroid_parse := fun _ _ => Raise (OtherError "RuntimeError");
  router_add_post := router_add_post quiet_env;
  demojize := demojize quiet_env;
  json_loads := json_loads quiet_env;
  json_dumps := json_dumps quiet_env;
|}.

Definition event_callback_request : Request :=
  json_request (PDict {[ "type" := PStr "event_callback";
                         "event" := PDict {[ "type" := PStr "message" ]} ]}).

Definition challenge_request : Request :=
  json_request (PDict {[ "type" := PStr "url_verification";
                         "challenge" := PStr "abc" ]}).

(** An [event_callback] without its [event]. *)
Definition eventless_request : Request :=
  json_request (PDict {[ "type" := PStr "event_callback" ]}).

(** What [connect] logs when it gives up. *)
Definition connect_failure : io :=
  Log LError
    "Unable to connect to Slack due to %s.The Slack Connector will not be available.".

(** A platform that answers [auth.test] and [users.info] as Slack does for
    the bot user ["U1"] with bot id ["B1"]. *)
Definition slack_answers (method : string) : outcome pyval :=
  if decide (method = "auth.test") then
    Ret (PDict {[ "ok" := PInt 1; "user_id" := PStr "U1" ]})
  else if decide (method = "users.info") then
    Ret (PDict {[ "ok" := PInt 1;
                  "user" := PDict {[ "id" := PStr "U1";
                                     "profile" := PDict {[ "bot_id" := PStr "B1" ]} ]} ]})
  else Ret (PDict {[ "ok" := PInt 1 ]}).

Definition slack_env : Env := {|
  slack_web_client := fun _ method _ _ _ => slack_answers method;
  event_creator := event_creator quiet_env;
  opsdroid_parse := opsdroid_parse quiet_env;
  router_add_post := router_add_post quiet_env;
  demojize := demojize quiet_env;
  json_loads := json_loads quiet_env;
  json_dumps := json_dumps quiet_env;
|}.

(** A platform that rejects every call with the given error text. *)
Definition rejecting_env (text : string) : Env := {|
  slack_web_client := fun _ _ _ _ _ => Raise (SlackApiError text);
  event_creator := event_creator quiet_env;
  opsdroid_parse := opsdroid_parse quiet_env;
  router_add_post := router_add_post quiet_env;
  demojize := demojize quiet_env;
  json_loads := json_loads quiet_env;
  json_dumps := json_dumps quiet_env;
|}.

(** A platform that accepts [auth.test] and rejects everything else. *)
Definition auth_only_env : Env := {|
  slack_web_client := fun _ method _ _ _ =>
    if decide (method = "auth.test") then slack_answers method
    else Raise (SlackApiError "user_not_found");
  event_creator := event_creator quiet_env;
  opsdroid_parse := opsdroid_parse quiet_env;
  router_add_post := router_add_post quiet_env;
  demojize := demojize quiet_env;
  json_loads := json_loads quiet_env;
  json_dumps := json_dumps quiet_env;
|}.

(** A platform whose [users.info] answer has a user without profile. *)
Definition profileless_env : Env := {|
  slack_web_client := fun _ method _ _ _ =>
    if decide (method = "users.info") then
      Ret (PDict {[ "ok" := PInt 1; "user" := PDict {[ "id" := PStr "U1" ]} ]})
    else slack_answers method;
  event_creator := event_creator quiet_env;
  opsdroid_parse := opsdroid_parse quiet_env;
  router_add_post := router_add_post quiet_env;
  demojize := demojize quiet_env;
  json_loads := json_loads quiet_env;
  json_dumps := json_dumps quiet_env;
|}.

(** A linked event that is the root of its thread, one inside a thread, and
    one outside any thread. *)
Definition thread_root : linked :=
  Linked (PStr "1582838099.000600")
         (Some {[ "thread_ts" := PStr "1582838099.000600" ]}).

Definition thread_reply : linked :=
  Linked (PStr "1582838099.000601")
         (Some {[ "thread_ts" := PStr "1582838099.000600" ]}).

Definition unthreaded : linked := Linked (PStr "1582838099.000601") (Some ∅).

(** A run after which the cache is consulted again: a lookup of another
    identifier that the platform rejects, then a successful handshake. *)
Definition later_ops : list (Env * op) :=
  [(rejecting_env "user_not_found", OpLookupUsername "U2");
   (slack_env, OpConnect);
   (quiet_env, OpSend hello)].

(** The user the sample platform knows, and an instance with two cached
    users. *)
Definition slack_user : gmap string pyval :=
  {[ "id" := PStr "U1"; "profile" := PDict {[ "bot_id" := PStr "B1" ]} ]}.

Definition with_two_users : ConnectorSlack :=
  set_known_user "U2" (PDict {[ "name" := PStr "Other User" ]}) with_test_user.


Definition looked_up_calls : list io :=
  [ApiCall "users.info" "GET" None (Some {[ "user" := PStr "U1" ]})].

(** The payloads handed to the event creator, the platform operations
    called, and the routes registered, each in order. *)
Fixpoint created_payloads (tr : list io) : list pyval :=
  match tr with
  | [] => []
  | CreateEvent payload :: tr' => payload :: created_payloads tr'
  | _ :: tr' => created_payloads tr'
  end.

Fixpoint api_methods (tr : list io) : list string :=
  match tr with
  | [] => []
  | ApiCall method _ _ _ :: tr' => method :: api_methods tr'
  | _ :: tr' => api_methods tr'
  end.

Fixpoint routes (tr : list io) : list string :=
  match tr with
  | [] => []
  | AddPost path :: tr' => path :: routes tr'
  | _ :: tr' => routes tr'
  end.

(** The fixed answer of the webhook handler. *)
Definition acknowledgement (env : Env) : http_response :=
  Response (json_dumps env (PStr "Received")) 200.

(** The handler once the event creator has answered [event]: forward, then
    acknowledge. *)
Definition finish (env : Env) (event : pyobj) : M http_response :=
  bind (forward env event) (fun _ => ret (acknowledgement env)).

(** The type values the webhook handler knows. *)
Definition known_types : list pyval :=
  PStr "url_verification" :: PStr "event_callback" :: interactive_types.

(** A form-encoded request, and a request of another content type. *)
Definition form_request (fields : gmap string string) : Request := {|
  content_type := "application/x-www-form-urlencoded";
  post := Ret fields;
  json := Raise (OtherError "unused");
|}.

Definition plain_text_request : Request := {|
  content_type := "text/plain";
  post := Raise (OtherError "unused");
  json := Raise (OtherError "unused");
|}.

(** A decoder that reads every text as one [block_actions] payload. *)
Definition block_actions : pyval := PDict {[ "type" := PStr "block_actions" ]}.

Definition loads_env : Env := {|
  slack_web_client := slack_web_client quiet_env;
  event_creator := fun _ _ => Ret (ObjEvent hello);
  opsdroid_parse := opsdroid_parse quiet_env;
  router_add_post := router_add_post quiet_env;
  demojize := demojize quiet_env;
  json_loads := fun _ => Ret block_actions;
  json_dumps := json_dumps quiet_env;
|}.

(** Requests with a payload of a type the handler does not know, with a
    [block_actions] payload, and an event creator that fails. *)
Definition app_rate_limited : gmap string pyval :=
  {[ "type" := PStr "app_rate_limited" ]}.

Definition message_event : pyval := PDict {[ "type" := PStr "message" ]}.

Definition event_callback : gmap string pyval :=
  {[ "type" := PStr "event_callback"; "event" := message_event ]}.

Definition failing_creator_env : Env := {|
  slack_web_client := slack_web_client quiet_env;
  event_creator := fun _ _ => Raise (KeyError "channel");
  opsdroid_parse := opsdroid_parse quiet_env;
  router_add_post := router_add_post quiet_env;
  demojize := demojize quiet_env;
  json_loads := json_loads quiet_env;
  json_dumps := json_dumps quiet_env;
|}.

(** What [connect] logs once the route is registered. *)
Definition connected_logs : list io :=
  [Log LDebug "Connected as %s."; Log LDebug "Using icon %s.";
   Log LDebug "Default room is %s."; Log LInfo "Connected successfully."].

(** A platform whose [auth.test] answer lacks the user id. *)
Definition anonymous_env : Env := {|
  slack_web_client := fun _ _ _ _ _ => Ret (PDict {[ "ok" := PInt 1 ]});
  event_creator := event_creator quiet_env;
  opsdroid_parse := opsdroid_parse quiet_env;
  router_add_post := router_add_post quiet_env;
  demojize := demojize quiet_env;
  json_loads := json_loads quiet_env;
  json_dumps := json_dumps quiet_env;
|}.

(** What the [try] of [connect] makes of an exception raised inside it. *)
Definition connect_except (err : exn) (self : ConnectorSlack) (tr : list io)
  : outcome unit * ConnectorSlack * list io :=
  match err with
  | SlackApiError _ => (Ret tt, self, tr ++ [connect_failure])
  | _ => (Raise err, self, tr)
  end.

(** A platform whose [users.info] answer carries a user that is not a
    dict. *)
Definition odd_user_env : Env := {|
  slack_web_client := fun _ _ _ _ _ =>
    Ret (PDict {[ "ok" := PInt 1; "user" := PStr "U1" ]});
  event_creator := event_creator quiet_env;
  opsdroid_parse := opsdroid_parse quiet_env;
  router_add_post := router_add_post quiet_env;
  demojize := demojize quiet_env;
  json_loads := json_loads quiet_env;
  json_dumps := json_dumps quiet_env;
|}.

(** One round of the loop of [replace_usernames]. *)
Definition replace_one (env : Env) (userid message : string) : M string :=
  bind (lookup_username env userid) (fun info =>
  bind (lift (py_getitem info "name")) (fun name =>
    match name with
    | PStr new => ret (str_replace (mention_token userid) new message)
    | _ => raise TypeError
    end)).

(** A text that is a plain mention of [userid] between [before] and
    [after]. *)
Definition around (before userid after : string) : string :=
  before +:+ mention_token userid +:+ after.

(** A platform that knows the user ["U1"] by name. *)
Definition named_user : gmap string pyval :=
  {[ "id" := PStr "U1"; "name" := PStr "Test User" ]}.

Definition named_env : Env := {|
  slack_web_client := fun _ _ _ _ _ =>
    Ret (PDict {[ "ok" := PInt 1; "user" := PDict named_user ]});
  event_creator := event_creator quiet_env;
  opsdroid_parse := opsdroid_parse quiet_env;
  router_add_post := router_add_post quiet_env;
  demojize := demojize quiet_env;
  json_loads := json_loads quiet_env;
  json_dumps := json_dumps quiet_env;
|}.

(** An instance whose cached user has no name. *)
Definition with_nameless_user : ConnectorSlack :=
  set_known_user "U1" (PDict {[ "id" := PStr "U1" ]}) (fresh false).

(** The platform operation each outgoing event class is sent to. *)
Definition operation_of (event : Event) : string :=
  match event with
  | Message _ _ _ | Blocks _ _ => "chat.postMessage"
  | EditedMessage _ _ _ | EditedBlocks _ _ _ => "chat.update"
  | Reaction _ _ _ => "reactions.add"
  | NewRoom _ => "conversations.create"
  | RoomName _ _ => "conversations.rename"
  | JoinRoom _ => "conversations.join"
  | UserInvite _ _ _ => "conversations.invite"
  | RoomDescription _ _ => "conversations.setTopic"
  | PinMessage _ _ => "pins.add"
  | UnpinMessage _ _ => "pins.remove"
  end.

(** The event carries what its handler reads from the linked event: a raw
    payload for a linked message, an event to react to, to pin or to
    unpin. *)
Definition well_linked (event : Event) : bool :=
  match event with
  | Message _ _ (Some le) => bool_decide (is_Some (raw_event le))
  | Reaction _ _ None | PinMessage _ None | UnpinMessage _ None => false
  | _ => true
  end.

Definition is_reaction (event : Event) : bool :=
  match event with Reaction _ _ _ => true | _ => false end.

(** A message in reply to [thread_reply], and a pin of nothing. *)
Definition reply : Event :=
  Message (PStr "test") (PStr "room") (Some thread_reply).

Definition pin_nothing : Event := PinMessage (PStr "room") None.


Definition other_user : gmap string pyval :=
  {[ "id" := PStr "U2"; "name" := PStr "Other User" ]}.

Definition user_answer (user : gmap string pyval) : outcome pyval :=
  Ret (PDict {[ "ok" := PInt 1; "user" := PDict user ]}).


(** A lookup of ["U2"] that is answered only after a handshake. *)
Definition around_connect : list action :=
  [Begin "U2"; Whole slack_env OpConnect; Resume "U2" (user_answer other_user);
   Whole quiet_env (OpSend hello)].

(** ** The webhook handler *)

Section Webhook.

Context (env : Env).

(** The loop of [forward] makes one [parse] call per element, each with the
    same argument, and fails only if [parse] does. *)
Lemma for_each_parse_same (arg : pyobj) (l : list Event) self tr :
  (forall tr' a, opsdroid_parse env tr' a = Ret tt) ->
  exists tr',
    for_each l tt
      (fun e _ => bind (log LDebug "Got slack event: {e}")
                    (fun _ => parse env arg)) self tr
    = (Ret tt, self, tr')
    /\ parse_calls tr' = parse_calls tr ++ replicate (List.length l) arg.
Proof.
  intros Hparse. revert tr.
  induction l as [|e l IH]; intros tr; simpl.
  - exists tr. split; [reflexivity|]. by rewrite app_nil_r.
  - unfold bind at 1. unfold bind at 1. unfold log, parse, call at 1 2.
    cbn. rewrite Hparse.
    destruct (IH ((tr ++ [Log LDebug "Got slack event: {e}"]) ++ [Parse arg]))
      as (tr' & Heq & Hcalls).
    exists tr'. split; [exact Heq|].
    rewrite Hcalls.
    assert (Hpc : forall a b, parse_calls (a ++ b) = parse_calls a ++ parse_calls b).
    { clear. induction a as [|[] a IHa]; intros b; simpl; rewrite ?IHa; reflexivity. }
    rewrite !Hpc. simpl. rewrite app_nil_r, <- app_assoc. reflexivity.
Qed.

(** With a host whose [parse] succeeds, [forward] returns and leaves the
    instance alone. *)
Lemma forward_ok (event : pyobj) self tr :
  (forall tr' a, opsdroid_parse env tr' a = Ret tt) ->
  exists tr', forward env event self tr = (Ret tt, self, tr').
Proof.
  intros Hparse. destruct event as [|e|l]; simpl.
  - by exists tr.
  - unfold bind, log, parse, call. rewrite Hparse. eauto.
  - destruct (for_each_parse_same (ObjList l) l self tr Hparse) as (tr' & Heq & _).
    eauto.
Qed.

(** A list of events on a host whose [parse] succeeds: [parse] is called
    once per element and receives the list itself every time. *)
Lemma forward_list_parse_calls (l : list Event) self tr :
  (forall tr' a, opsdroid_parse env tr' a = Ret tt) ->
  exists tr',
    forward env (ObjList l) self tr = (Ret tt, self, tr')
    /\ parse_calls tr' = parse_calls tr ++ replicate (List.length l) (ObjList l).
Proof. intros Hparse. exact (for_each_parse_same (ObjList l) l self tr Hparse). Qed.

(** [classify] on a dict without the challenge type neither raises nor
    returns early, as long as the event creator answers and an
    [event_callback] carries its [event]. *)
Lemma classify_continue (d : gmap string pyval) self tr :
  d !! "type" <> Some (PStr "url_verification") ->
  (d !! "type" = Some (PStr "event_callback") -> is_Some (d !! "event")) ->
  (forall tr' p, exists o, event_creator env tr' p = Ret o) ->
  exists event tr',
    classify env (PDict d) self tr = (Ret (Continue event), self, tr').
Proof.
  intros Hnot Hevent Hcreate. unfold classify, bind at 1, lift at 1. simpl.
  destruct (d !! "type") as [ty|] eqn:Hty.
  2: { rewrite bool_decide_eq_false_2 by (intros [? ?]; discriminate).
       by exists ObjNone, tr. }
  rewrite bool_decide_eq_true_2 by eauto.
  unfold bind at 1, lift at 1. simpl.
  unfold py_eq.
  rewrite (bool_decide_eq_false_2 (ty = PStr "url_verification")) by congruence.
  destruct (decide (ty = PStr "event_callback")) as [->|Hne].
  - rewrite bool_decide_eq_true_2 by reflexivity.
    destruct (Hevent eq_refl) as [inner Hinner].
    unfold bind, lift, create_event, call, ret. rewrite Hinner.
    destruct (Hcreate tr inner) as [o Ho]. rewrite Ho. eauto.
  - rewrite bool_decide_eq_false_2 by exact Hne.
    destruct (bool_decide (ty ∈ interactive_types)).
    + unfold bind, create_event, call, ret.
      destruct (Hcreate tr (PDict d)) as [o Ho]. rewrite Ho. eauto.
    + unfold bind, log, call, ret. eauto.
Qed.

End Webhook.

(** C1, at an event creator that returns the list of two events [hello] and
    [world]: the handler acknowledges, and its two calls to the host's
    [parse] both carry the whole list; the elements are never passed one by
    one. *)
Theorem slack_event_handler_parses_whole_list :
  exists tr,
    slack_event_handler two_events_env event_callback_request (fresh false) []
    = (Ret (Response (json_dumps two_events_env (PStr "Received")) 200),
       fresh false, tr)
    /\ parse_calls tr = [ObjList [hello; world]; ObjList [hello; world]]
    /\ parse_calls tr <> [ObjEvent hello; ObjEvent world].
Proof.
  eexists. split; [vm_compute; reflexivity|].
  split; [reflexivity|discriminate].
Qed.

(** C8: a payload of type [url_verification] with challenge [c] is answered
    with the JSON response [{"challenge": c}]; the handler returns before any
    event is created or forwarded: it makes no call at all, and leaves the
    instance as it was. *)
Theorem slack_event_handler_url_verification
    env request (d : gmap string pyval) (c : pyval) self tr :
  read_payload env request = Ret (PDict d) ->
  d !! "type" = Some (PStr "url_verification") ->
  d !! "challenge" = Some c ->
  slack_event_handler env request self tr
  = (Ret (json_response (PDict {[ "challenge" := c ]})), self, tr).
Proof.
  intros Hpayload Hty Hc.
  unfold slack_event_handler, bind at 1, lift at 1. rewrite Hpayload.
  unfold bind at 1, classify, bind at 1, lift at 1. simpl.
  rewrite Hty, bool_decide_eq_true_2 by eauto.
  unfold bind at 1, lift at 1. simpl.
  unfold bind, lift, ret. rewrite Hc. reflexivity.
Qed.

Lemma slack_event_handler_url_verification_witness :
  slack_event_handler quiet_env challenge_request (fresh false) []
  = (Ret (json_response (PDict {[ "challenge" := PStr "abc" ]})), fresh false, []).
Proof.
  apply (slack_event_handler_url_verification quiet_env challenge_request
           {[ "type" := PStr "url_verification"; "challenge" := PStr "abc" ]}).
  - reflexivity.
  - reflexivity.
  - reflexivity.
Defined.

(** When nothing raises: a request whose payload is a dict that is not a
    verification challenge, and that carries an [event] when its type is
    [event_callback], is answered with status 200 and the JSON text of
    "Received" whenever the event creator and the host's [parse] do not
    raise, whether or not an event was produced. *)
Theorem slack_event_handler_acknowledges
    env request (d : gmap string pyval) self tr :
  read_payload env request = Ret (PDict d) ->
  d !! "type" <> Some (PStr "url_verification") ->
  (d !! "type" = Some (PStr "event_callback") -> is_Some (d !! "event")) ->
  (forall tr' p, exists o, event_creator env tr' p = Ret o) ->
  (forall tr' a, opsdroid_parse env tr' a = Ret tt) ->
  exists tr',
    slack_event_handler env request self tr
    = (Ret (Response (json_dumps env (PStr "Received")) 200), self, tr').
Proof.
  intros Hpayload Hnot Hevent Hcreate Hparse.
  unfold slack_event_handler, bind at 1, lift at 1. rewrite Hpayload.
  destruct (classify_continue env d self tr Hnot Hevent Hcreate)
    as (event & tr1 & Hclassify).
  unfold bind at 1. rewrite Hclassify.
  destruct (forward_ok env event self tr1 Hparse) as (tr2 & Hforward).
  unfold bind, ret. rewrite Hforward. eauto.
Qed.

Lemma slack_event_handler_acknowledges_witness :
  exists tr',
    slack_event_handler two_events_env event_callback_request (fresh false) []
    = (Ret (Response (json_dumps two_events_env (PStr "Received")) 200),
       fresh false, tr').
Proof.
  apply (slack_event_handler_acknowledges two_events_env event_callback_request
           {[ "type" := PStr "event_callback";
              "event" := PDict {[ "type" := PStr "message" ]} ]}).
  - reflexivity.
  - discriminate.
  - intros _. exists (PDict {[ "type" := PStr "message" ]}). reflexivity.
  - intros tr' p. exists (ObjList [hello; world]). reflexivity.
  - reflexivity.
Defined.

(** C3, at two requests that are not verification challenges.  The
    handler's docstring promises a 200 OK response, since without it the
    platform sends the webhook again and may unsubscribe it.  Yet an
    [event_callback] without [event] makes the handler raise [KeyError]
    before any call, and a failure of the host's [parse] leaves the handler
    as it is, after the event was handed to [parse]; no acknowledgement is
    returned in either case. *)
Lemma slack_event_handler_failure_propagates :
  slack_event_handler quiet_env eventless_request (fresh false) []
  = (Raise (KeyError "event"), fresh false, [])
  /\ exists tr,
       slack_event_handler failing_parse_env event_callback_request
         (fresh false) []
       = (Raise (OtherError "RuntimeError"), fresh false, tr)
       /\ parse_calls tr = [ObjEvent hello].
Proof.
  split; [vm_compute; reflexivity|].
  eexists. split; [vm_compute; reflexivity|reflexivity].
Qed.

(** ** Thread linking in [_send_message] *)

(** The fields every outgoing message carries never include a thread
    marker. *)
Lemma message_data_no_thread (channel text username icon : pyval) :
  ({[ "channel" := channel; "text" := text; "username" := username;
      "icon_emoji" := icon ]} : gmap string pyval) !! "thread_ts" = None.
Proof. by simplify_map_eq. Qed.

(** C2, as the code has it.  When the linked event (if any) has a raw
    payload, [_send_message] makes one [chat.postMessage] call, and its
    [thread_ts] is: the linked event's marker when the raw payload has one
    that differs from the linked event's id; the linked event's id when the
    raw payload has no marker and threads are started; absent in every other
    case: no linked event, a linked event that is the root of its thread
    (whatever [start_thread] says), or no marker and no thread start. *)
Theorem send_message_thread_ts env text target linked_event self tr :
  (forall le, linked_event = Some le -> is_Some (raw_event le)) ->
  let tr0 := tr ++ [Log LDebug "Responding with: '%s' in room  %s."] in
  exists data : gmap string pyval,
    _send_message env text target linked_event self tr
    = (slack_web_client env tr0 "chat.postMessage" "POST" (Some data) None,
       self, tr0 ++ [ApiCall "chat.postMessage" "POST" (Some data) None])
    /\ (forall le raw thread_ts,
          linked_event = Some le -> raw_event le = Some raw ->
          raw !! "thread_ts" = Some thread_ts -> event_id le <> thread_ts ->
          data !! "thread_ts" = Some thread_ts)
    /\ (forall le raw,
          linked_event = Some le -> raw_event le = Some raw ->
          raw !! "thread_ts" = None -> start_thread self = true ->
          data !! "thread_ts" = Some (event_id le))
    /\ (forall le raw,
          linked_event = Some le -> raw_event le = Some raw ->
          raw !! "thread_ts" = Some (event_id le) ->
          data !! "thread_ts" = None)
    /\ (forall le raw,
          linked_event = Some le -> raw_event le = Some raw ->
          raw !! "thread_ts" = None -> start_thread self = false ->
          data !! "thread_ts" = None)
    /\ (linked_event = None -> data !! "thread_ts" = None).
Proof.
  intros Hraw tr0.
  unfold _send_message, bind at 1, log at 1, call at 1. fold tr0.
  unfold bind at 1, get_self at 1, bind at 1, link_thread, bind at 1, get_self at 1.
  destruct linked_event as [[id raw]|]; simpl.
  2: { eexists. split; [reflexivity|].
       repeat split; intros; try discriminate;
         try apply message_data_no_thread. }
  destruct (Hraw _ eq_refl) as [d Hd]. simpl in Hd. subst raw.
  destruct (d !! "thread_ts") as [ts|] eqn:Hts.
  - unfold py_ne, py_eq. destruct (decide (id = ts)) as [->|Hne].
    + rewrite bool_decide_eq_true_2 by reflexivity. simpl.
      eexists. split; [reflexivity|].
      repeat split; intros; simplify_eq/=; try congruence;
        try apply message_data_no_thread.
    + rewrite bool_decide_eq_false_2 by exact Hne. simpl.
      eexists. split; [reflexivity|].
      repeat split; intros; simplify_eq/=; try congruence;
        try by rewrite lookup_insert_eq.
  - destruct (start_thread self) eqn:Hstart; simpl.
    + eexists. split; [reflexivity|].
      repeat split; intros; simplify_eq/=; try congruence;
        try by rewrite lookup_insert_eq.
    + eexists. split; [reflexivity|].
      repeat split; intros; simplify_eq/=; try congruence;
        try apply message_data_no_thread.
Qed.

Lemma send_message_thread_ts_witness :
  exists data : gmap string pyval,
    _send_message quiet_env (PStr "test") (PStr "room") (Some thread_reply)
      (fresh false) []
    = (Ret (PDict {[ "ok" := PInt 1 ]}), fresh false,
       [Log LDebug "Responding with: '%s' in room  %s.";
        ApiCall "chat.postMessage" "POST" (Some data) None])
    /\ data !! "thread_ts" = Some (PStr "1582838099.000600").
Proof.
  destruct (send_message_thread_ts quiet_env (PStr "test") (PStr "room")
              (Some thread_reply) (fresh false) [])
    as (data & Hcall & Hreply & _).
  - intros le [= <-]. eexists. reflexivity.
  - exists data. split; [exact Hcall|].
    apply (Hreply thread_reply {[ "thread_ts" := PStr "1582838099.000600" ]}).
    + reflexivity.
    + reflexivity.
    + reflexivity.
    + discriminate.
Defined.

(** C2 as worded fails: with threads started and a linked event that is the
    root of its thread, the wording asks for the linked event's id as thread
    marker, and the call carries none. *)
Lemma send_message_thread_root_unthreaded :
  exists data : gmap string pyval,
    _send_message quiet_env (PStr "test") (PStr "room") (Some thread_root)
      (fresh true) []
    = (Ret (PDict {[ "ok" := PInt 1 ]}), fresh true,
       [Log LDebug "Responding with: '%s' in room  %s.";
        ApiCall "chat.postMessage" "POST" (Some data) None])
    /\ data !! "thread_ts" = None
    /\ worded_thread_ts (start_thread (fresh true)) (Some thread_root)
       = Some (PStr "1582838099.000600").
Proof.
  eexists. split; [vm_compute; reflexivity|].
  split; [vm_compute; reflexivity|reflexivity].
Qed.

(** A linked event without raw payload: the membership test raises and no
    call is made. *)
Lemma send_message_without_raw_event env text target id self tr :
  _send_message env text target (Some (Linked id None)) self tr
  = (Raise TypeError, self,
     tr ++ [Log LDebug "Responding with: '%s' in room  %s."]).
Proof. reflexivity. Qed.

(** ** [send_reaction] *)

(** C7: when the [reactions.add] call raises, [send_reaction] logs a warning
    and returns [None] if the error is a [SlackApiError] whose text contains
    "invalid_name", and raises the same error to its caller otherwise. *)
Theorem send_reaction_failure env emoji target le self tr e :
  let name := str_replace ":" empty_str (demojize env emoji) in
  let data : gmap string pyval :=
    {[ "name" := PStr name; "channel" := target; "timestamp" := event_id le ]} in
  let tr0 := tr ++ [Log LDebug "Reacting with: %s."] in
  let tr1 := tr0 ++ [ApiCall "reactions.add" "POST" (Some data) None] in
  slack_web_client env tr0 "reactions.add" "POST" (Some data) None = Raise e ->
  (forall text,
     e = SlackApiError text -> str_contains "invalid_name" text = true ->
     send_reaction env emoji target (Some le) self tr
     = (Ret PNone, self,
        tr1 ++ [Log LWarning "Slack does not support the emoji %s."]))
  /\ ((forall text,
         e = SlackApiError text -> str_contains "invalid_name" text = false) ->
      send_reaction env emoji target (Some le) self tr = (Raise e, self, tr1)).
Proof.
  intros name data tr0 tr1 Hcall.
  assert (Hrun : send_reaction env emoji target (Some le) self tr
                 = match e with
                   | SlackApiError text =>
                       if str_contains "invalid_name" text
                       then (Ret PNone, self,
                             tr1 ++ [Log LWarning "Slack does not support the emoji %s."])
                       else (Raise e, self, tr1)
                   | _ => (Raise e, self, tr1)
                   end).
  { unfold send_reaction, try_except_SlackApiError, bind, log, linked_event_id,
      ret, raise, api_call, call.
    fold name tr0 data. rewrite Hcall. fold tr1.
    destruct e as [text| | | |]; try reflexivity.
    destruct (str_contains "invalid_name" text); reflexivity. }
  rewrite Hrun. split.
  - intros text -> Hin. rewrite Hin. reflexivity.
  - intros Hother. destruct e as [text| | | |]; try reflexivity.
    rewrite (Hother text eq_refl). reflexivity.
Qed.

Lemma send_reaction_failure_witness :
  send_reaction (rejecting_env "invalid_name") ":NOT_EMOJI:" (PStr "room")
    (Some unthreaded) (fresh false) []
  = (Ret PNone, fresh false,
     [Log LDebug "Reacting with: %s.";
      ApiCall "reactions.add" "POST"
        (Some {[ "name" := PStr "NOT_EMOJI"; "channel" := PStr "room";
                 "timestamp" := PStr "1582838099.000601" ]}) None;
      Log LWarning "Slack does not support the emoji %s."])
  /\ send_reaction (rejecting_env "channel_not_found") ":NOT_EMOJI:"
       (PStr "room") (Some unthreaded) (fresh false) []
     = (Raise (SlackApiError "channel_not_found"), fresh false,
        [Log LDebug "Reacting with: %s.";
         ApiCall "reactions.add" "POST"
           (Some {[ "name" := PStr "NOT_EMOJI"; "channel" := PStr "room";
                    "timestamp" := PStr "1582838099.000601" ]}) None]).
Proof.
  split.
  - apply (proj1 (send_reaction_failure (rejecting_env "invalid_name")
                    ":NOT_EMOJI:" (PStr "room") unthreaded (fresh false) []
                    (SlackApiError "invalid_name") eq_refl)
             "invalid_name" eq_refl).
    reflexivity.
  - apply (proj2 (send_reaction_failure (rejecting_env "channel_not_found")
                    ":NOT_EMOJI:" (PStr "room") unthreaded (fresh false) []
                    (SlackApiError "channel_not_found") eq_refl)).
    intros text [= <-]. reflexivity.
Defined.

(** ** What the methods write *)

#[local] Instance same_but_identity_preorder : PreOrder same_but_identity.
Proof.
  split.
  - intros a. by repeat split.
  - intros a b c (?&?&?&?&?&?) (?&?&?&?&?&?). repeat split; congruence.
Qed.

#[local] Instance cache_grows_preorder : PreOrder cache_grows.
Proof.
  split.
  - intros a. by repeat split.
  - intros a b c [(?&?&?&?&?&?&?&?) Hab] [(?&?&?&?&?&?&?&?) Hbc].
    split; [repeat split; congruence|]. by transitivity (known_users b).
Qed.

Section Preserves.

Context (R : relation ConnectorSlack) `{!PreOrder R}.

Lemma preserves_ret {A} (a : A) : preserves R (ret a).
Proof. intros self tr. reflexivity. Qed.

Lemma preserves_raise {A} (e : exn) : preserves R (raise (A := A) e).
Proof. intros self tr. reflexivity. Qed.

Lemma preserves_lift {A} (o : outcome A) : preserves R (lift o).
Proof. intros self tr. reflexivity. Qed.

Lemma preserves_get_self : preserves R get_self.
Proof. intros self tr. reflexivity. Qed.

Lemma preserves_call {A} (c : io) (answer : list io -> outcome A) :
  preserves R (call c answer).
Proof. intros self tr. reflexivity. Qed.

Lemma preserves_set_self (f : ConnectorSlack -> ConnectorSlack) :
  (forall self, R self (f self)) -> preserves R (set_self f).
Proof. intros Hf self tr. apply Hf. Qed.

Lemma preserves_bind {A B} (m : M A) (f : A -> M B) :
  preserves R m -> (forall a, preserves R (f a)) -> preserves R (bind m f).
Proof.
  intros Hm Hf self tr. unfold bind.
  specialize (Hm self tr).
  destruct (m self tr) as [[[a|e] self'] tr']; simpl in *; [|exact Hm].
  transitivity self'; [exact Hm|apply Hf].
Qed.

Lemma preserves_try_except {A} (body : M A) (handler : string -> M A) :
  preserves R body -> (forall text, preserves R (handler text)) ->
  preserves R (try_except_SlackApiError body handler).
Proof.
  intros Hbody Hhandler self tr. unfold try_except_SlackApiError.
  specialize (Hbody self tr).
  destruct (body self tr) as [[[a|[text| | | |]] self'] tr']; simpl in *;
    try exact Hbody.
  transitivity self'; [exact Hbody|apply Hhandler].
Qed.

Lemma preserves_for_each {A B} (xs : list A) (acc : B) (body : A -> B -> M B) :
  (forall x b, preserves R (body x b)) -> preserves R (for_each xs acc body).
Proof.
  intros Hbody. revert acc.
  induction xs as [|x xs IH]; intros acc; simpl.
  - apply preserves_ret.
  - apply preserves_bind; [apply Hbody|intros b; apply IH].
Qed.

End Preserves.

(** One step through the structure of a method. *)
Ltac preserves_step :=
  lazymatch goal with
  | |- preserves _ (bind _ _) =>
      apply preserves_bind; [typeclasses eauto| |intros ?]
  | |- preserves _ (ret _) => apply preserves_ret; typeclasses eauto
  | |- preserves _ (raise _) => apply preserves_raise; typeclasses eauto
  | |- preserves _ (lift _) => apply preserves_lift; typeclasses eauto
  | |- preserves _ get_self => apply preserves_get_self; typeclasses eauto
  | |- preserves _ (call _ _) => apply preserves_call; typeclasses eauto
  | |- preserves _ (try_except_SlackApiError _ _) =>
      apply preserves_try_except; [typeclasses eauto| |intros ?]
  | |- preserves _ (for_each _ _ _) =>
      apply preserves_for_each; [typeclasses eauto|intros ? ?]
  | |- preserves _ (match ?x with _ => _ end) => destruct x
  end.

Ltac preserves_auto := repeat preserves_step.

Section Frame.

Context (env : Env).

Lemma send_message_frame text target linked_event :
  preserves eq (_send_message env text target linked_event).
Proof.
  unfold _send_message, link_thread, log, api_call. preserves_auto.
Qed.

Lemma edit_message_frame text target linked_event :
  preserves eq (_edit_message env text target linked_event).
Proof. unfold _edit_message, log, api_call. preserves_auto. Qed.

Lemma send_blocks_frame blocks target :
  preserves eq (_send_blocks env blocks target).
Proof. unfold _send_blocks, log, api_call. preserves_auto. Qed.

Lemma edit_blocks_frame blocks target linked_event :
  preserves eq (_edit_blocks env blocks target linked_event).
Proof. unfold _edit_blocks, log, api_call. preserves_auto. Qed.

Lemma send_reaction_frame emoji target linked_event :
  preserves eq (send_reaction env emoji target linked_event).
Proof.
  unfold send_reaction, linked_event_id, log, api_call. cbv zeta.
  preserves_auto.
Qed.

Lemma send_room_creation_frame name :
  preserves eq (_send_room_creation env name).
Proof. unfold _send_room_creation, log, api_call. preserves_auto. Qed.

Lemma send_room_name_set_frame name target :
  preserves eq (_send_room_name_set env name target).
Proof. unfold _send_room_name_set, log, api_call. preserves_auto. Qed.

Lemma send_join_room_frame target : preserves eq (_send_join_room env target).
Proof. unfold _send_join_room, api_call. preserves_auto. Qed.

Lemma send_user_invitation_frame user user_id target :
  preserves eq (_send_user_invitation env user user_id target).
Proof. unfold _send_user_invitation, log, api_call. preserves_auto. Qed.

Lemma send_room_description_frame description target :
  preserves eq (_send_room_description env description target).
Proof. unfold _send_room_description, api_call. preserves_auto. Qed.

Lemma send_pin_message_frame target linked_event :
  preserves eq (_send_pin_message env target linked_event).
Proof.
  unfold _send_pin_message, linked_event_id, api_call. preserves_auto.
Qed.

Lemma send_unpin_message_frame target linked_event :
  preserves eq (_send_unpin_message env target linked_event).
Proof.
  unfold _send_unpin_message, linked_event_id, api_call. preserves_auto.
Qed.

Lemma send_frame event : preserves eq (send env event).
Proof.
  destruct event; simpl;
    auto using send_message_frame, edit_message_frame, send_blocks_frame,
      edit_blocks_frame, send_reaction_frame, send_room_creation_frame,
      send_room_name_set_frame, send_join_room_frame,
      send_user_invitation_frame, send_room_description_frame,
      send_pin_message_frame, send_unpin_message_frame.
Qed.

Lemma slack_event_handler_frame request :
  preserves eq (slack_event_handler env request).
Proof.
  unfold slack_event_handler, classify, forward, create_event, parse, log.
  preserves_auto.
Qed.

Lemma connect_frame : preserves same_but_identity (connect env).
Proof.
  unfold connect, api_call, add_post, log.
  preserves_auto; apply preserves_set_self; intros self; by repeat split.
Qed.

(** [lookup_username] written out. *)
Lemma lookup_username_eq userid self tr :
  lookup_username env userid self tr
  = match known_users self !! userid with
    | Some info => (Ret info, self, tr)
    | None =>
        let request :=
          ApiCall "users.info" "GET" None (Some {[ "user" := PStr userid ]}) in
        match slack_web_client env tr "users.info" "GET" None
                (Some {[ "user" := PStr userid ]}) with
        | Ret response =>
            match py_getitem response "user" with
            | Ret info =>
                (Ret info,
                 if is_dict info then set_known_user userid info self else self,
                 tr ++ [request])
            | Raise e => (Raise e, self, tr ++ [request])
            end
        | Raise e => (Raise e, self, tr ++ [request])
        end
    end.
Proof.
  unfold lookup_username, users_info, api_call, bind, get_self, call, lift, ret,
    set_self.
  destruct (known_users self !! userid) as [info|]; [reflexivity|].
  destruct (slack_web_client env tr "users.info" "GET" None
              (Some {[ "user" := PStr userid ]})) as [response|e];
    [|reflexivity].
  destruct (py_getitem response "user") as [info|e]; [|reflexivity].
  destruct (is_dict info); reflexivity.
Qed.

Lemma lookup_username_frame userid :
  preserves cache_grows (lookup_username env userid).
Proof.
  intros self tr. rewrite lookup_username_eq.
  destruct (known_users self !! userid) as [info|] eqn:Hknown;
    [reflexivity|].
  destruct (slack_web_client env tr "users.info" "GET" None
              (Some {[ "user" := PStr userid ]})) as [response|e];
    [|reflexivity].
  destruct (py_getitem response "user") as [info|e]; [|reflexivity].
  destruct (is_dict info); [|reflexivity]. simpl.
  split; [by repeat split|]. simpl. by apply insert_subseteq.
Qed.

Lemma replace_usernames_frame message :
  preserves cache_grows (replace_usernames env message).
Proof.
  unfold replace_usernames. cbv zeta.
  apply preserves_for_each; [typeclasses eauto|]. intros userid text.
  apply preserves_bind; [typeclasses eauto|apply lookup_username_frame|].
  intros info. preserves_auto.
Qed.

(** No operation removes or replaces an entry of the identity cache. *)
Lemma run_op_known_users (o : op) self tr :
  known_users self ⊆ known_users (run_op env o self tr).1.
Proof.
  destruct o as [|userid|message|event|request]; simpl.
  - pose proof (connect_frame self tr) as (_&_&_&_&_&Hk).
    destruct (connect env self tr) as [[? ?] ?]. simpl in *. by rewrite Hk.
  - pose proof (lookup_username_frame userid self tr) as [_ Hk].
    by destruct (lookup_username env userid self tr) as [[? ?] ?].
  - pose proof (replace_usernames_frame message self tr) as [_ Hk].
    by destruct (replace_usernames env message self tr) as [[? ?] ?].
  - pose proof (send_frame event self tr) as Hk.
    destruct (send env event self tr) as [[? ?] ?]. simpl in *. by subst.
  - pose proof (slack_event_handler_frame request self tr) as Hk.
    destruct (slack_event_handler env request self tr) as [[? ?] ?].
    simpl in *. by subst.
Qed.

End Frame.

Lemma run_ops_known_users (ops : list (Env * op)) self tr :
  known_users self ⊆ known_users (run_ops ops self tr).1.
Proof.
  revert self tr. induction ops as [|[env o] ops IH]; intros self tr; simpl.
  - reflexivity.
  - pose proof (run_op_known_users env o self tr) as Hstep.
    destruct (run_op env o self tr) as [self' tr']. simpl in Hstep.
    etransitivity; [exact Hstep|apply IH].
Qed.


(** C10: no outbound handler assigns to an attribute of the instance: each
    leaves it exactly as it found it, whatever the platform answers; so does
    the webhook handler.  [connect] changes at most [auth_info], [user_info]
    and [bot_id]; [lookup_username] changes at most [known_users], and only
    by adding to it; [replace_usernames] writes through [lookup_username]
    alone. *)
Theorem handlers_leave_instance env :
  (forall text target linked_event,
     preserves eq (_send_message env text target linked_event))
  /\ (forall text target linked_event,
        preserves eq (_edit_message env text target linked_event))
  /\ (forall blocks target, preserves eq (_send_blocks env blocks target))
  /\ (forall blocks target linked_event,
        preserves eq (_edit_blocks env blocks target linked_event))
  /\ (forall emoji target linked_event,
        preserves eq (send_reaction env emoji target linked_event))
  /\ (forall name, preserves eq (_send_room_creation env name))
  /\ (forall name target, preserves eq (_send_room_name_set env name target))
  /\ (forall target, preserves eq (_send_join_room env target))
  /\ (forall user user_id target,
        preserves eq (_send_user_invitation env user user_id target))
  /\ (forall description target,
        preserves eq (_send_room_description env description target))
  /\ (forall target linked_event,
        preserves eq (_send_pin_message env target linked_event))
  /\ (forall target linked_event,
        preserves eq (_send_unpin_message env target linked_event))
  /\ (forall event, preserves eq (send env event))
  /\ (forall request, preserves eq (slack_event_handler env request))
  /\ preserves same_but_identity (connect env)
  /\ (forall userid, preserves cache_grows (lookup_username env userid))
  /\ (forall message, preserves cache_grows (replace_usernames env message)).
Proof.
  repeat apply conj; intros.
  - apply send_message_frame.
  - apply edit_message_frame.
  - apply send_blocks_frame.
  - apply edit_blocks_frame.
  - apply send_reaction_frame.
  - apply send_room_creation_frame.
  - apply send_room_name_set_frame.
  - apply send_join_room_frame.
  - apply send_user_invitation_frame.
  - apply send_room_description_frame.
  - apply send_pin_message_frame.
  - apply send_unpin_message_frame.
  - apply send_frame.
  - apply slack_event_handler_frame.
  - apply connect_frame.
  - apply lookup_username_frame.
  - apply replace_usernames_frame.
Qed.

(** ** The identity cache *)

(** When no two operations overlap, the identity cache is append-only:
    through any operation of the connector run from start to end, and through
    any sequence of them, with whatever collaborators, an entry of
    [known_users] stays where it is with the value it has. *)
Theorem known_users_append_only
    env (o : op) (ops : list (Env * op)) self tr (userid : string) (v : pyval) :
  known_users self !! userid = Some v ->
  known_users (run_op env o self tr).1 !! userid = Some v
  /\ known_users (run_ops ops self tr).1 !! userid = Some v.
Proof.
  intros Hknown. split.
  - exact (lookup_weaken _ _ _ _ Hknown (run_op_known_users env o self tr)).
  - exact (lookup_weaken _ _ _ _ Hknown (run_ops_known_users ops self tr)).
Qed.

Lemma known_users_append_only_witness :
  known_users (run_op slack_env (OpLookupUsername "U1") with_test_user []).1
    !! "U1"
  = Some (PDict {[ "name" := PStr "Test User" ]})
  /\ known_users (run_ops later_ops with_test_user []).1 !! "U1"
     = Some (PDict {[ "name" := PStr "Test User" ]}).
Proof.
  apply (known_users_append_only slack_env (OpLookupUsername "U1") later_ops
           with_test_user [] "U1").
  reflexivity.
Defined.



(** ** [replace_usernames] *)

(** A text without ["<"] has no mention. *)
Lemma findall_mention_none (s : list ascii) (skip : nat) :
  "<"%char ∉ s -> findall_from mention_re skip s = [].
Proof.
  revert skip. induction s as [|c s IH]; intros skip Hnot; [reflexivity|].
  apply not_elem_of_cons in Hnot as [Hc Hs]. simpl.
  destruct skip as [|k]; [|by apply IH].
  unfold match_at. simpl. rewrite decide_False by congruence. by apply IH.
Qed.

(** On a text without ["<"], [replace_usernames] is the identity and makes
    no call. *)
Lemma replace_usernames_no_mention env (message : string) self tr :
  "<"%char ∉ list_ascii_of_string message ->
  replace_usernames env message self tr = (Ret message, self, tr).
Proof.
  intros Hnot. unfold replace_usernames, re_findall.
  by rewrite findall_mention_none.
Qed.

(** The connector's own test: one plain mention of a cached user. *)
Example replace_usernames_plain :
  replace_usernames quiet_env "hello <@U1>" with_test_user []
  = (Ret "hello Test User", with_test_user, []).
Proof. vm_compute. reflexivity. Qed.

(** Two distinct plain mentions are both replaced. *)
Example replace_usernames_two_plain :
  replace_usernames quiet_env "<@U1> meets <@U2>, <@U1>!" with_two_users []
  = (Ret "Test User meets Other User, Test User!", with_two_users, []).
Proof. vm_compute. reflexivity. Qed.

(** C5, at a mention with a display hint: the pattern finds the identifier
    ["U1"] in ["hello <@U1|bob>"] and the cached user is looked up, but the
    text comes back unchanged, while the same user's plain mention becomes
    "Test User". *)
Theorem replace_usernames_keeps_hinted_mention :
  re_findall mention_re "hello <@U1|bob>" = ["U1"]
  /\ replace_usernames quiet_env "hello <@U1|bob>" with_test_user []
     = (Ret "hello <@U1|bob>", with_test_user, [])
  /\ replace_usernames quiet_env "hello <@U1>" with_test_user []
     = (Ret "hello Test User", with_test_user, []).
Proof. repeat split; vm_compute; reflexivity. Qed.

(** A hint also swallows what follows it up to the last [">"] of the line:
    the second mention is not even found. *)
Example replace_usernames_hint_hides_next :
  re_findall mention_re "<@U1|bob> meets <@U2>" = ["U1"]
  /\ replace_usernames quiet_env "<@U1|bob> meets <@U2>" with_two_users []
     = (Ret "<@U1|bob> meets <@U2>", with_two_users, []).
Proof. split; vm_compute; reflexivity. Qed.

(** ** More on the webhook handler *)

Lemma created_payloads_app (a b : list io) :
  created_payloads (a ++ b) = created_payloads a ++ created_payloads b.
Proof. induction a as [|[] a IH]; simpl; rewrite ?IH; reflexivity. Qed.

Lemma parse_calls_app (a b : list io) :
  parse_calls (a ++ b) = parse_calls a ++ parse_calls b.
Proof. induction a as [|[] a IH]; simpl; rewrite ?IH; reflexivity. Qed.

Lemma api_methods_app (a b : list io) :
  api_methods (a ++ b) = api_methods a ++ api_methods b.
Proof. induction a as [|[] a IH]; simpl; rewrite ?IH; reflexivity. Qed.

Lemma routes_app (a b : list io) : routes (a ++ b) = routes a ++ routes b.
Proof. induction a as [|[] a IH]; simpl; rewrite ?IH; reflexivity. Qed.

Section WebhookMore.

Context (env : Env).

(** The handler sees a request only through its payload. *)
Lemma slack_event_handler_payload request1 request2 self tr :
  read_payload env request1 = read_payload env request2 ->
  slack_event_handler env request1 self tr
  = slack_event_handler env request2 self tr.
Proof. intros Heq. unfold slack_event_handler. by rewrite Heq. Qed.

(** A form-encoded request whose [payload] field decodes to [v] is handled
    exactly as a JSON request with body [v]. *)
Theorem form_request_as_json request fields p v self tr :
  content_type request = "application/x-www-form-urlencoded" ->
  post request = Ret fields ->
  fields !! "payload" = Some p ->
  json_loads env p = Ret v ->
  slack_event_handler env request self tr
  = slack_event_handler env (json_request v) self tr.
Proof.
  intros Hct Hpost Hfield Hloads. apply slack_event_handler_payload.
  unfold read_payload. rewrite Hct, Hpost, Hfield, Hloads. reflexivity.
Qed.

(** A form-encoded request without [payload] field raises [KeyError] before
    anything is called. *)
Theorem form_request_without_payload request fields self tr :
  content_type request = "application/x-www-form-urlencoded" ->
  post request = Ret fields ->
  fields !! "payload" = None ->
  slack_event_handler env request self tr
  = (Raise (KeyError "payload"), self, tr).
Proof.
  intros Hct Hpost Hfield.
  unfold slack_event_handler, bind, lift, read_payload.
  rewrite Hct, Hpost, Hfield. reflexivity.
Qed.

(** A request of any other content type is acknowledged without any call:
    nothing is decoded, created, forwarded or logged. *)
Theorem other_content_type_acknowledged request self tr :
  content_type request <> "application/x-www-form-urlencoded" ->
  content_type request <> "application/json" ->
  slack_event_handler env request self tr = (Ret (acknowledgement env), self, tr).
Proof.
  intros Hform Hjson.
  unfold slack_event_handler, bind at 1, lift at 1, read_payload.
  rewrite !decide_False by assumption. reflexivity.
Qed.

(** A payload that is [None] or a number is not iterable: the test
    ["type" in payload] raises [TypeError] and nothing is called. *)
Theorem non_iterable_payload_raises request payload self tr :
  read_payload env request = Ret payload ->
  payload = PNone \/ (exists n, payload = PInt n) ->
  slack_event_handler env request self tr = (Raise TypeError, self, tr).
Proof.
  intros Hpayload Hshape.
  unfold slack_event_handler, bind at 1, lift at 1. rewrite Hpayload.
  destruct Hshape as [->|[n ->]]; reflexivity.
Qed.

(** [forward] hands nothing to the event creator. *)
Lemma for_each_created (arg : pyobj) (l : list Event) self tr :
  created_payloads
    (for_each l tt
       (fun e _ => bind (log LDebug "Got slack event: {e}")
                     (fun _ => parse env arg)) self tr).2
  = created_payloads tr.
Proof.
  revert tr. induction l as [|e l IH]; intros tr; [reflexivity|].
  simpl. unfold bind at 1, bind at 1, log at 1, call at 1, parse at 1, call at 1.
  destruct (opsdroid_parse env (tr ++ [Log LDebug "Got slack event: {e}"]) arg)
    as [[]|err]; simpl.
  - rewrite IH, !created_payloads_app. simpl. by rewrite !app_nil_r.
  - rewrite !created_payloads_app. simpl. by rewrite !app_nil_r.
Qed.

Lemma forward_created (event : pyobj) self tr :
  created_payloads (forward env event self tr).2 = created_payloads tr.
Proof.
  destruct event as [|e|l]; simpl.
  - reflexivity.
  - unfold bind, log, parse, call.
    destruct (opsdroid_parse env (tr ++ [Log LDebug "Got slack event: {event}"])
                (ObjEvent e)) as [[]|err]; simpl;
      rewrite !created_payloads_app; simpl; by rewrite !app_nil_r.
  - apply for_each_created.
Qed.

(** The handler on a dict payload, type by type. *)
Lemma slack_event_handler_dict request (d : gmap string pyval) self tr :
  read_payload env request = Ret (PDict d) ->
  slack_event_handler env request self tr
  = match d !! "type" with
    | None => (Ret (acknowledgement env), self, tr)
    | Some ty =>
        if decide (ty = PStr "url_verification") then
          match d !! "challenge" with
          | Some c => (Ret (json_response (PDict {[ "challenge" := c ]})), self, tr)
          | None => (Raise (KeyError "challenge"), self, tr)
          end
        else if decide (ty = PStr "event_callback") then
          match d !! "event" with
          | Some inner =>
              match event_creator env tr inner with
              | Ret event => finish env event self (tr ++ [CreateEvent inner])
              | Raise e => (Raise e, self, tr ++ [CreateEvent inner])
              end
          | None => (Raise (KeyError "event"), self, tr)
          end
        else if decide (ty ∈ interactive_types) then
          match event_creator env tr (PDict d) with
          | Ret event => finish env event self (tr ++ [CreateEvent (PDict d)])
          | Raise e => (Raise e, self, tr ++ [CreateEvent (PDict d)])
          end
        else
          (Ret (acknowledgement env), self,
           tr ++ [Log LInfo
                    "Payload: {payload['type']} is not implemented. Event wont be parsed"])
    end.
Proof.
  intros Hpayload.
  unfold slack_event_handler, bind at 1, lift at 1. rewrite Hpayload.
  unfold bind at 1, classify, bind at 1, lift at 1. simpl.
  destruct (d !! "type") as [ty|] eqn:Hty.
  2: { by rewrite bool_decide_eq_false_2 by (intros [? ?]; discriminate). }
  rewrite bool_decide_eq_true_2 by eauto.
  unfold bind at 1, lift at 1. simpl. unfold py_eq.
  destruct (decide (ty = PStr "url_verification")) as [->|Hv].
  { rewrite bool_decide_eq_true_2 by reflexivity.
    unfold bind, lift, ret. simpl. by destruct (d !! "challenge"). }
  rewrite (bool_decide_eq_false_2 (ty = PStr "url_verification")) by exact Hv.
  destruct (decide (ty = PStr "event_callback")) as [->|Hc].
  { rewrite bool_decide_eq_true_2 by reflexivity.
    unfold bind at 1, lift at 1. simpl.
    destruct (d !! "event") as [inner|]; [|reflexivity].
    unfold bind at 1, create_event, call.
    by destruct (event_creator env tr inner). }
  rewrite (bool_decide_eq_false_2 (ty = PStr "event_callback")) by exact Hc.
  destruct (decide (ty ∈ interactive_types)) as [Hi|Hi].
  - rewrite bool_decide_eq_true_2 by exact Hi.
    unfold bind at 1, create_event, call.
    by destruct (event_creator env tr (PDict d)).
  - rewrite bool_decide_eq_false_2 by exact Hi. reflexivity.
Qed.

Lemma finish_created (event : pyobj) self tr :
  created_payloads (finish env event self tr).2 = created_payloads tr.
Proof.
  unfold finish, bind, ret.
  pose proof (forward_created event self tr) as Hforward.
  by destruct (forward env event self tr) as [[[[]|err] self'] tr'].
Qed.

(** A payload without type, or of a type the handler does not know, is
    acknowledged; nothing is created or forwarded, and the unknown type is
    logged. *)
Theorem unknown_type_acknowledged request (d : gmap string pyval) self tr :
  read_payload env request = Ret (PDict d) ->
  (d !! "type" = None ->
   slack_event_handler env request self tr
   = (Ret (acknowledgement env), self, tr))
  /\ (forall ty, d !! "type" = Some ty -> ty ∉ known_types ->
      slack_event_handler env request self tr
      = (Ret (acknowledgement env), self,
         tr ++ [Log LInfo
                  "Payload: {payload['type']} is not implemented. Event wont be parsed"])).
Proof.
  intros Hpayload. rewrite (slack_event_handler_dict _ _ _ _ Hpayload).
  split.
  - intros ->. reflexivity.
  - intros ty -> Hnot. unfold known_types in Hnot.
    rewrite !not_elem_of_cons in Hnot. destruct Hnot as (Hv & Hc & Hi).
    rewrite !decide_False by assumption. reflexivity.
Qed.

(** What the event creator is given: the nested [event] of an
    [event_callback], the whole payload of an interactive action, and
    nothing otherwise; it is called at most once per request. *)
Theorem event_creator_argument request (d : gmap string pyval) self tr :
  read_payload env request = Ret (PDict d) ->
  (forall inner,
     d !! "type" = Some (PStr "event_callback") -> d !! "event" = Some inner ->
     created_payloads (slack_event_handler env request self tr).2
     = created_payloads tr ++ [inner])
  /\ (forall ty,
        d !! "type" = Some ty -> ty ∈ interactive_types ->
        created_payloads (slack_event_handler env request self tr).2
        = created_payloads tr ++ [PDict d])
  /\ (forall ty,
        d !! "type" = Some ty -> ty <> PStr "event_callback" ->
        ty ∉ interactive_types ->
        created_payloads (slack_event_handler env request self tr).2
        = created_payloads tr)
  /\ (d !! "type" = None ->
      created_payloads (slack_event_handler env request self tr).2
      = created_payloads tr).
Proof.
  intros Hpayload. rewrite (slack_event_handler_dict _ _ _ _ Hpayload).
  repeat apply conj.
  - intros inner -> ->. simpl.
    destruct (event_creator env tr inner) as [event|err]; simpl.
    + rewrite finish_created, created_payloads_app. reflexivity.
    + rewrite created_payloads_app. reflexivity.
  - intros ty -> Hi.
    assert (ty <> PStr "url_verification" /\ ty <> PStr "event_callback")
      as [Hv Hc].
    { split; intros ->; unfold interactive_types in Hi;
        rewrite !elem_of_cons, elem_of_nil in Hi;
        destruct Hi as [|[|[|[|[]]]]]; discriminate. }
    rewrite !decide_False by assumption. rewrite decide_True by exact Hi.
    destruct (event_creator env tr (PDict d)) as [event|err]; simpl.
    + rewrite finish_created, created_payloads_app. reflexivity.
    + rewrite created_payloads_app. reflexivity.
  - intros ty -> Hc Hi.
    destruct (decide (ty = PStr "url_verification")) as [->|Hv].
    + by destruct (d !! "challenge").
    + rewrite !decide_False by assumption. simpl.
      rewrite created_payloads_app. simpl. by rewrite app_nil_r.
  - intros ->. reflexivity.
Qed.

(** An [event_callback] for which one event is created: the event goes to
    the host's [parse] once, and the request is acknowledged if [parse]
    returns; if [parse] raises, so does the handler. *)
Theorem single_event_forwarded request (d : gmap string pyval) inner e self tr :
  read_payload env request = Ret (PDict d) ->
  d !! "type" = Some (PStr "event_callback") ->
  d !! "event" = Some inner ->
  event_creator env tr inner = Ret (ObjEvent e) ->
  let tr1 := tr ++ [CreateEvent inner; Log LDebug "Got slack event: {event}"] in
  slack_event_handler env request self tr
  = (match opsdroid_parse env tr1 (ObjEvent e) with
     | Ret _ => Ret (acknowledgement env)
     | Raise err => Raise err
     end, self, tr1 ++ [Parse (ObjEvent e)]).
Proof.
  intros Hpayload Hty Hevent Hcreate tr1.
  rewrite (slack_event_handler_dict _ _ _ _ Hpayload), Hty, Hevent, Hcreate.
  simpl. unfold finish, forward, bind, log, parse, call, ret.
  replace ((tr ++ [CreateEvent inner]) ++ [Log LDebug "Got slack event: {event}"])
    with tr1 by (unfold tr1; by rewrite <- app_assoc).
  by destruct (opsdroid_parse env tr1 (ObjEvent e)) as [[]|err].
Qed.

(** An [event_callback] for which no event is created is acknowledged
    without any call to [parse]; one on which the event creator raises makes
    the handler raise, again without any call to [parse]. *)
Theorem no_event_not_forwarded request (d : gmap string pyval) inner self tr :
  read_payload env request = Ret (PDict d) ->
  d !! "type" = Some (PStr "event_callback") ->
  d !! "event" = Some inner ->
  (event_creator env tr inner = Ret ObjNone ->
   slack_event_handler env request self tr
   = (Ret (acknowledgement env), self, tr ++ [CreateEvent inner]))
  /\ (forall err, event_creator env tr inner = Raise err ->
      slack_event_handler env request self tr
      = (Raise err, self, tr ++ [CreateEvent inner])).
Proof.
  intros Hpayload Hty Hevent.
  rewrite (slack_event_handler_dict _ _ _ _ Hpayload), Hty, Hevent. simpl.
  split.
  - intros ->. reflexivity.
  - intros err ->. reflexivity.
Qed.

End WebhookMore.

Lemma form_request_as_json_witness :
  slack_event_handler loads_env (form_request {[ "payload" := "{}" ]})
    (fresh false) []
  = slack_event_handler loads_env (json_request block_actions) (fresh false) [].
Proof.
  apply (form_request_as_json loads_env (form_request {[ "payload" := "{}" ]})
           {[ "payload" := "{}" ]} "{}" block_actions).
  - reflexivity.
  - reflexivity.
  - reflexivity.
  - reflexivity.
Defined.

Lemma form_request_without_payload_witness :
  slack_event_handler quiet_env (form_request {[ "token" := "x" ]})
    (fresh false) []
  = (Raise (KeyError "payload"), fresh false, []).
Proof.
  apply (form_request_without_payload quiet_env
           (form_request {[ "token" := "x" ]}) {[ "token" := "x" ]}).
  - reflexivity.
  - reflexivity.
  - reflexivity.
Defined.

Lemma other_content_type_acknowledged_witness :
  slack_event_handler failing_parse_env plain_text_request (fresh false) []
  = (Ret (acknowledgement failing_parse_env), fresh false, []).
Proof.
  apply (other_content_type_acknowledged failing_parse_env plain_text_request).
  - discriminate.
  - discriminate.
Defined.

Lemma non_iterable_payload_raises_witness :
  slack_event_handler quiet_env (json_request (PInt 7)) (fresh false) []
  = (Raise TypeError, fresh false, []).
Proof.
  apply (non_iterable_payload_raises quiet_env (json_request (PInt 7)) (PInt 7)).
  - reflexivity.
  - right. exists 7%Z. reflexivity.
Defined.

Lemma unknown_type_acknowledged_witness :
  slack_event_handler failing_parse_env (json_request (PDict app_rate_limited))
    (fresh false) []
  = (Ret (acknowledgement failing_parse_env), fresh false,
     [Log LInfo
        "Payload: {payload['type']} is not implemented. Event wont be parsed"]).
Proof.
  apply (proj2 (unknown_type_acknowledged failing_parse_env
                  (json_request (PDict app_rate_limited)) app_rate_limited
                  (fresh false) [] eq_refl) (PStr "app_rate_limited")).
  - reflexivity.
  - unfold known_types, interactive_types. rewrite !not_elem_of_cons.
    repeat split; try discriminate. apply not_elem_of_nil.
Defined.

Lemma event_creator_argument_witness :
  created_payloads
    (slack_event_handler loads_env (json_request (PDict event_callback))
       (fresh false) []).2
  = [message_event].
Proof.
  apply (proj1 (event_creator_argument loads_env
                  (json_request (PDict event_callback)) event_callback
                  (fresh false) [] eq_refl) message_event).
  - reflexivity.
  - reflexivity.
Defined.

Lemma single_event_forwarded_witness :
  slack_event_handler loads_env (json_request (PDict event_callback))
    (fresh false) []
  = (Ret (acknowledgement loads_env), fresh false,
     [CreateEvent message_event; Log LDebug "Got slack event: {event}";
      Parse (ObjEvent hello)]).
Proof.
  apply (single_event_forwarded loads_env (json_request (PDict event_callback))
           event_callback message_event hello (fresh false) []).
  - reflexivity.
  - reflexivity.
  - reflexivity.
  - reflexivity.
Defined.

Lemma no_event_not_forwarded_witness :
  slack_event_handler failing_creator_env (json_request (PDict event_callback))
    (fresh false) []
  = (Raise (KeyError "channel"), fresh false, [CreateEvent message_event]).
Proof.
  apply (proj2 (no_event_not_forwarded failing_creator_env
                  (json_request (PDict event_callback)) event_callback
                  message_event (fresh false) [] eq_refl eq_refl eq_refl)
           (KeyError "channel")).
  reflexivity.
Defined.

(** ** More on [connect] *)

(** Subscripting raises [KeyError] or [TypeError], never a
    [SlackApiError]. *)
Lemma py_getitem_not_SlackApiError (v : pyval) (k text : string) :
  py_getitem v k <> Raise (SlackApiError text).
Proof.
  destruct v as [| | | |d]; simpl; try discriminate.
  destruct (d !! k); discriminate.
Qed.

Section ConnectMore.

Context (env : Env) (self : ConnectorSlack) (tr : list io).

(** [connect] written out, step by step. *)
Lemma connect_eq :
  let tr0 := tr ++ [Log LInfo "Connecting to Slack."] in
  let tr1 := tr0 ++ [ApiCall "auth.test" "POST" None None] in
  connect env self tr
  = match slack_web_client env tr0 "auth.test" "POST" None None with
    | Raise err => connect_except err self tr1
    | Ret a =>
        let self1 := set_auth_info a self in
        match py_getitem a "user_id" with
        | Raise err => connect_except err self1 tr1
        | Ret user_id =>
            let params : option (gmap string pyval) :=
              Some {[ "user" := user_id ]} in
            let tr2 := tr1 ++ [ApiCall "users.info" "GET" None params] in
            match slack_web_client env tr1 "users.info" "GET" None params with
            | Raise err => connect_except err self1 tr2
            | Ret u =>
                let self2 := set_user_info u self1 in
                match py_getitem u "user" with
                | Raise err => connect_except err self2 tr2
                | Ret user =>
                    match py_getitem user "profile" with
                    | Raise err => connect_except err self2 tr2
                    | Ret profile =>
                        match py_getitem profile "bot_id" with
                        | Raise err => connect_except err self2 tr2
                        | Ret b =>
                            let self3 := set_bot_id b self2 in
                            let tr3 := tr2 ++ [AddPost "/connector/slack"] in
                            match router_add_post env tr2 "/connector/slack" with
                            | Raise err => connect_except err self3 tr3
                            | Ret _ => (Ret tt, self3, tr3 ++ connected_logs)
                            end
                        end
                    end
                end
            end
        end
    end.
Proof.
  intros tr0 tr1.
  unfold connect, bind at 1, log at 1, call at 1.
  unfold try_except_SlackApiError, bind at 1, api_call at 1, call at 1.
  fold tr0.
  destruct (slack_web_client env tr0 "auth.test" "POST" None None) as [a|err].
  2: { fold tr1. by destruct err. }
  fold tr1. unfold bind at 1, set_self at 1, bind at 1, lift at 1.
  destruct (py_getitem a "user_id") as [user_id|err]; [|by destruct err].
  unfold bind at 1, api_call at 1, call at 1.
  destruct (slack_web_client env tr1 "users.info" "GET" None
              (Some {[ "user" := user_id ]})) as [u|err];
    [|by destruct err].
  unfold bind at 1, set_self at 1, bind at 1, lift at 1.
  destruct (py_getitem u "user") as [user|err]; [|by destruct err].
  unfold bind at 1, lift at 1.
  destruct (py_getitem user "profile") as [profile|err]; [|by destruct err].
  unfold bind at 1, lift at 1.
  destruct (py_getitem profile "bot_id") as [b|err]; [|by destruct err].
  unfold bind at 1, set_self at 1, bind at 1, add_post, call at 1.
  destruct (router_add_post env _ "/connector/slack") as [[]|err];
    [|by destruct err].
  unfold bind, log, call, connected_logs. simpl.
  by rewrite <- !app_assoc.
Qed.

(** A caught or raised exception adds no route. *)
Lemma connect_except_routes err self' tr' :
  routes (connect_except err self' tr').2 = routes tr'.
Proof.
  destruct err; simpl; rewrite ?routes_app; simpl; by rewrite ?app_nil_r.
Qed.

(** A successful handshake: both platform calls are made in order, the
    second for the user id the first returned; the three identity attributes
    are assigned; the webhook route is registered once, under
    ["/connector/slack"]. *)
Theorem connect_success (a user_id u user profile b : pyval) :
  let tr1 := tr ++ [Log LInfo "Connecting to Slack.";
                    ApiCall "auth.test" "POST" None None] in
  let tr2 :=
    tr1 ++ [ApiCall "users.info" "GET" None (Some {[ "user" := user_id ]})] in
  slack_web_client env (tr ++ [Log LInfo "Connecting to Slack."])
    "auth.test" "POST" None None = Ret a ->
  py_getitem a "user_id" = Ret user_id ->
  slack_web_client env tr1 "users.info" "GET" None
    (Some {[ "user" := user_id ]}) = Ret u ->
  py_getitem u "user" = Ret user ->
  py_getitem user "profile" = Ret profile ->
  py_getitem profile "bot_id" = Ret b ->
  router_add_post env tr2 "/connector/slack" = Ret tt ->
  connect env self tr
  = (Ret tt, set_bot_id b (set_user_info u (set_auth_info a self)),
     tr2 ++ AddPost "/connector/slack" :: connected_logs).
Proof.
  intros tr1 tr2 Hauth Hid Hinfo Huser Hprofile Hbot Hroute.
  rewrite connect_eq. cbv zeta.
  replace ((tr ++ [Log LInfo "Connecting to Slack."]) ++
           [ApiCall "auth.test" "POST" None None]) with tr1
    by (unfold tr1; by rewrite <- app_assoc).
  rewrite Hauth, Hid, Hinfo, Huser, Hprofile, Hbot. fold tr2. rewrite Hroute.
  by rewrite <- app_assoc.
Qed.

(** When the identity answer has no usable user id, [connect] raises what
    the subscript raised: [auth_info] is already assigned, and neither the
    profile lookup nor the route registration is attempted. *)
Theorem connect_without_user_id (a : pyval) (err : exn) :
  slack_web_client env (tr ++ [Log LInfo "Connecting to Slack."])
    "auth.test" "POST" None None = Ret a ->
  py_getitem a "user_id" = Raise err ->
  connect env self tr
  = (Raise err, set_auth_info a self,
     tr ++ [Log LInfo "Connecting to Slack.";
            ApiCall "auth.test" "POST" None None]).
Proof.
  intros Hauth Hid. rewrite connect_eq. cbv zeta. rewrite Hauth, Hid.
  rewrite <- app_assoc. simpl.
  destruct err as [text| | | |]; try reflexivity.
  by destruct (py_getitem_not_SlackApiError a "user_id" text).
Qed.

(** A route in the calls of [connect] means the handshake went through: the
    route is ["/connector/slack"], requested once, and by then [bot_id] holds
    the bot id read from the profile answer. *)
Theorem connect_route_after_handshake :
  routes (connect env self tr).2 <> routes tr ->
  routes (connect env self tr).2 = routes tr ++ ["/connector/slack"]
  /\ exists user profile,
       py_getitem (user_info (connect env self tr).1.2) "user" = Ret user
       /\ py_getitem user "profile" = Ret profile
       /\ py_getitem profile "bot_id" = Ret (bot_id (connect env self tr).1.2).
Proof.
  rewrite connect_eq. cbv zeta.
  destruct (slack_web_client env _ "auth.test" "POST" None None) as [a|err].
  2: { rewrite connect_except_routes, !routes_app. simpl.
       rewrite !app_nil_r. congruence. }
  destruct (py_getitem a "user_id") as [user_id|err].
  2: { rewrite connect_except_routes, !routes_app. simpl.
       rewrite !app_nil_r. congruence. }
  destruct (slack_web_client env _ "users.info" "GET" None _) as [u|err].
  2: { rewrite connect_except_routes, !routes_app. simpl.
       rewrite !app_nil_r. congruence. }
  destruct (py_getitem u "user") as [user|err] eqn:Huser.
  2: { rewrite connect_except_routes, !routes_app. simpl.
       rewrite !app_nil_r. congruence. }
  destruct (py_getitem user "profile") as [profile|err] eqn:Hprofile.
  2: { rewrite connect_except_routes, !routes_app. simpl.
       rewrite !app_nil_r. congruence. }
  destruct (py_getitem profile "bot_id") as [b|err] eqn:Hbot.
  2: { rewrite connect_except_routes, !routes_app. simpl.
       rewrite !app_nil_r. congruence. }
  intros _.
  destruct (router_add_post env _ "/connector/slack") as [[]|err].
  - simpl. split.
    + rewrite !routes_app. simpl. by rewrite !app_nil_r.
    + by exists user, profile.
  - split.
    + rewrite connect_except_routes, !routes_app. simpl. by rewrite !app_nil_r.
    + destruct err; simpl; by exists user, profile.
Qed.

End ConnectMore.

(** C4, as the code has it: [connect] catches [SlackApiError] and nothing
    else.  A [SlackApiError] never leaves [connect]: when the
    identity-verification call raises one, [connect] logs the failure and
    returns with the instance untouched; when the self-profile lookup raises
    one, [connect] logs the failure and returns with only [auth_info]
    assigned; in both cases no route is registered.  An exception of any
    other class leaves [connect] as it is, unlogged, wherever in the sequence
    it is raised: by the identity-verification call, by the self-profile
    lookup, by the bot-id extraction, or by the route registration. *)
Theorem connect_catches_SlackApiError env self tr :
  let tr0 := tr ++ [Log LInfo "Connecting to Slack."] in
  let tr1 := tr0 ++ [ApiCall "auth.test" "POST" None None] in
  (forall text, (connect env self tr).1.1 <> Raise (SlackApiError text))
  /\ (forall text,
        slack_web_client env tr0 "auth.test" "POST" None None
        = Raise (SlackApiError text) ->
        connect env self tr = (Ret tt, self, tr1 ++ [connect_failure]))
  /\ (forall a user_id text,
        slack_web_client env tr0 "auth.test" "POST" None None = Ret a ->
        py_getitem a "user_id" = Ret user_id ->
        slack_web_client env tr1 "users.info" "GET" None
          (Some {[ "user" := user_id ]})
        = Raise (SlackApiError text) ->
        connect env self tr
        = (Ret tt, set_auth_info a self,
           tr1 ++ [ApiCall "users.info" "GET" None (Some {[ "user" := user_id ]});
                   connect_failure]))
  /\ (forall err,
        (forall text, err <> SlackApiError text) ->
        slack_web_client env tr0 "auth.test" "POST" None None = Raise err ->
        connect env self tr = (Raise err, self, tr1))
  /\ (forall a user_id err,
        (forall text, err <> SlackApiError text) ->
        slack_web_client env tr0 "auth.test" "POST" None None = Ret a ->
        py_getitem a "user_id" = Ret user_id ->
        slack_web_client env tr1 "users.info" "GET" None
          (Some {[ "user" := user_id ]})
        = Raise err ->
        connect env self tr
        = (Raise err, set_auth_info a self,
           tr1 ++ [ApiCall "users.info" "GET" None (Some {[ "user" := user_id ]})]))
  /\ (forall a user_id u err,
        slack_web_client env tr0 "auth.test" "POST" None None = Ret a ->
        py_getitem a "user_id" = Ret user_id ->
        slack_web_client env tr1 "users.info" "GET" None
          (Some {[ "user" := user_id ]})
        = Ret u ->
        (py_getitem u "user" = Raise err
         \/ (exists user,
               py_getitem u "user" = Ret user
               /\ (py_getitem user "profile" = Raise err
                   \/ exists profile,
                        py_getitem user "profile" = Ret profile
                        /\ py_getitem profile "bot_id" = Raise err))) ->
        connect env self tr
        = (Raise err, set_user_info u (set_auth_info a self),
           tr1 ++ [ApiCall "users.info" "GET" None (Some {[ "user" := user_id ]})]))
  /\ (forall a user_id u user profile b err,
        (forall text, err <> SlackApiError text) ->
        slack_web_client env tr0 "auth.test" "POST" None None = Ret a ->
        py_getitem a "user_id" = Ret user_id ->
        slack_web_client env tr1 "users.info" "GET" None
          (Some {[ "user" := user_id ]})
        = Ret u ->
        py_getitem u "user" = Ret user ->
        py_getitem user "profile" = Ret profile ->
        py_getitem profile "bot_id" = Ret b ->
        router_add_post env
          (tr1 ++ [ApiCall "users.info" "GET" None (Some {[ "user" := user_id ]})])
          "/connector/slack"
        = Raise err ->
        connect env self tr
        = (Raise err, set_bot_id b (set_user_info u (set_auth_info a self)),
           tr1 ++ [ApiCall "users.info" "GET" None (Some {[ "user" := user_id ]});
                   AddPost "/connector/slack"])).
Proof.
  intros tr0 tr1.
  assert (Hescape : forall err self' tr',
            (forall text, err <> SlackApiError text) ->
            connect_except err self' tr' = (Raise err, self', tr')).
  { intros err self' tr' Hother. destruct err as [text| | | |]; try reflexivity.
    by destruct (Hother text). }
  assert (Hsubscript : forall v k err,
            py_getitem v k = Raise err -> forall text, err <> SlackApiError text).
  { intros v k err Herr text ->.
    by destruct (py_getitem_not_SlackApiError v k text). }
  repeat apply conj.
  - intros text. rewrite connect_eq. cbv zeta.
    repeat (case_match; try discriminate);
      match goal with
      | |- context [connect_except ?e _ _] => destruct e; discriminate
      end.
  - intros text Hauth. rewrite connect_eq. cbv zeta. fold tr0 tr1.
    by rewrite Hauth.
  - intros a user_id text Hauth Hid Hinfo. rewrite connect_eq. cbv zeta.
    fold tr0 tr1. rewrite Hauth, Hid, Hinfo. simpl. by rewrite <- app_assoc.
  - intros err Hother Hauth. rewrite connect_eq. cbv zeta. fold tr0 tr1.
    rewrite Hauth. by apply Hescape.
  - intros a user_id err Hother Hauth Hid Hinfo. rewrite connect_eq. cbv zeta.
    fold tr0 tr1. rewrite Hauth, Hid, Hinfo. by apply Hescape.
  - intros a user_id u err Hauth Hid Hinfo Hextract. rewrite connect_eq.
    cbv zeta. fold tr0 tr1. rewrite Hauth, Hid, Hinfo.
    destruct Hextract as [Huser|(user & Huser & [Hprofile|(profile & Hprofile & Hbot)])].
    + rewrite Huser. eapply Hescape, Hsubscript, Huser.
    + rewrite Huser, Hprofile. eapply Hescape, Hsubscript, Hprofile.
    + rewrite Huser, Hprofile, Hbot. eapply Hescape, Hsubscript, Hbot.
  - intros a user_id u user profile b err Hother Hauth Hid Hinfo Huser Hprofile
      Hbot Hroute. rewrite connect_eq. cbv zeta. fold tr0 tr1.
    rewrite Hauth, Hid, Hinfo, Huser, Hprofile, Hbot, Hroute.
    rewrite Hescape by exact Hother. by rewrite <- app_assoc.
Qed.

Lemma connect_catches_SlackApiError_witness :
  connect (rejecting_env "invalid_auth") (fresh false) []
  = (Ret tt, fresh false,
     [Log LInfo "Connecting to Slack."; ApiCall "auth.test" "POST" None None;
      connect_failure])
  /\ connect auth_only_env (fresh false) []
     = (Ret tt, set_auth_info (PDict {[ "ok" := PInt 1; "user_id" := PStr "U1" ]})
                  (fresh false),
        [Log LInfo "Connecting to Slack."; ApiCall "auth.test" "POST" None None;
         ApiCall "users.info" "GET" None (Some {[ "user" := PStr "U1" ]});
         connect_failure])
  /\ connect profileless_env (fresh false) []
     = (Raise (KeyError "profile"),
        set_user_info
          (PDict {[ "ok" := PInt 1; "user" := PDict {[ "id" := PStr "U1" ]} ]})
          (set_auth_info (PDict {[ "ok" := PInt 1; "user_id" := PStr "U1" ]})
             (fresh false)),
        [Log LInfo "Connecting to Slack."; ApiCall "auth.test" "POST" None None;
         ApiCall "users.info" "GET" None (Some {[ "user" := PStr "U1" ]})]).
Proof.
  split; [|split].
  - apply (proj1 (proj2 (connect_catches_SlackApiError
                           (rejecting_env "invalid_auth") (fresh false) []))
             "invalid_auth").
    reflexivity.
  - apply (proj1 (proj2 (proj2 (connect_catches_SlackApiError
                                  auth_only_env (fresh false) [])))
             (PDict {[ "ok" := PInt 1; "user_id" := PStr "U1" ]}) (PStr "U1")
             "user_not_found").
    + reflexivity.
    + reflexivity.
    + reflexivity.
  - apply (proj1 (proj2 (proj2 (proj2 (proj2 (proj2
             (connect_catches_SlackApiError profileless_env (fresh false) []))))))
             (PDict {[ "ok" := PInt 1; "user_id" := PStr "U1" ]}) (PStr "U1")
             (PDict {[ "ok" := PInt 1; "user" := PDict {[ "id" := PStr "U1" ]} ]})
             (KeyError "profile")).
    + reflexivity.
    + reflexivity.
    + reflexivity.
    + right. exists (PDict {[ "id" := PStr "U1" ]}). split; [reflexivity|].
      left. reflexivity.
Defined.

(** C4 as worded fails: when the self-profile answer has no [profile], the
    bot-id extraction raises [KeyError], which [connect] does not catch. *)
Lemma connect_KeyError_escapes :
  exists self tr,
    connect profileless_env (fresh false) []
    = (Raise (KeyError "profile"), self, tr).
Proof. eexists _, _. vm_compute. reflexivity. Qed.

Lemma connect_success_witness :
  connect slack_env (fresh false) []
  = (Ret tt,
     set_bot_id (PStr "B1")
       (set_user_info (PDict {[ "ok" := PInt 1; "user" := PDict slack_user ]})
          (set_auth_info (PDict {[ "ok" := PInt 1; "user_id" := PStr "U1" ]})
             (fresh false))),
     [Log LInfo "Connecting to Slack."; ApiCall "auth.test" "POST" None None;
      ApiCall "users.info" "GET" None (Some {[ "user" := PStr "U1" ]});
      AddPost "/connector/slack"] ++ connected_logs).
Proof.
  apply (connect_success slack_env (fresh false) []
           (PDict {[ "ok" := PInt 1; "user_id" := PStr "U1" ]}) (PStr "U1")
           (PDict {[ "ok" := PInt 1; "user" := PDict slack_user ]})
           (PDict slack_user) (PDict {[ "bot_id" := PStr "B1" ]}) (PStr "B1")).
  - reflexivity.
  - reflexivity.
  - reflexivity.
  - reflexivity.
  - reflexivity.
  - reflexivity.
  - reflexivity.
Defined.

Lemma connect_without_user_id_witness :
  connect anonymous_env (fresh false) []
  = (Raise (KeyError "user_id"),
     set_auth_info (PDict {[ "ok" := PInt 1 ]}) (fresh false),
     [Log LInfo "Connecting to Slack."; ApiCall "auth.test" "POST" None None]).
Proof.
  apply (connect_without_user_id anonymous_env (fresh false) []
           (PDict {[ "ok" := PInt 1 ]}) (KeyError "user_id")).
  - reflexivity.
  - reflexivity.
Defined.

Lemma connect_route_after_handshake_witness :
  routes (connect slack_env (fresh false) []).2 = [] ++ ["/connector/slack"]
  /\ exists user profile,
       py_getitem (user_info (connect slack_env (fresh false) []).1.2) "user"
       = Ret user
       /\ py_getitem user "profile" = Ret profile
       /\ py_getitem profile "bot_id"
          = Ret (bot_id (connect slack_env (fresh false) []).1.2).
Proof.
  apply (connect_route_after_handshake slack_env (fresh false) []).
  vm_compute. discriminate.
Defined.

(** ** More on [lookup_username] *)

Section LookupMore.

Context (env : Env).

(** A first lookup that finds a dict: one [users.info] call for the
    identifier; the dict is returned and is from then on the cached value of
    the identifier; every other entry of the cache is as before. *)
Theorem lookup_username_miss
    (userid : string) self tr (response : pyval) (info : gmap string pyval) :
  known_users self !! userid = None ->
  slack_web_client env tr "users.info" "GET" None
    (Some {[ "user" := PStr userid ]}) = Ret response ->
  py_getitem response "user" = Ret (PDict info) ->
  exists self',
    lookup_username env userid self tr
    = (Ret (PDict info), self',
       tr ++ [ApiCall "users.info" "GET" None
                (Some {[ "user" := PStr userid ]})])
    /\ known_users self' !! userid = Some (PDict info)
    /\ (forall other, other <> userid ->
        known_users self' !! other = known_users self !! other)
    /\ same_but_cache self self'.
Proof.
  intros Hmiss Hcall Huser. exists (set_known_user userid (PDict info) self).
  rewrite lookup_username_eq, Hmiss. cbv zeta. rewrite Hcall, Huser. simpl.
  repeat split.
  - apply lookup_insert_eq.
  - intros other Hne. by apply lookup_insert_ne.
Qed.

(** [lookup_username] touches the instance only on a miss answered with a
    dict, and then only by storing that dict under the identifier. *)
Theorem lookup_username_writes (userid : string) self tr :
  (lookup_username env userid self tr).1.2 <> self ->
  known_users self !! userid = None
  /\ exists info : gmap string pyval,
       (lookup_username env userid self tr).1.1 = Ret (PDict info)
       /\ (lookup_username env userid self tr).1.2
          = set_known_user userid (PDict info) self.
Proof.
  rewrite lookup_username_eq.
  destruct (known_users self !! userid) as [cached|]; [done|]. cbv zeta.
  destruct (slack_web_client env tr "users.info" "GET" None
              (Some {[ "user" := PStr userid ]})) as [response|err]; [|done].
  destruct (py_getitem response "user") as [[| | | |info]|err]; try done.
  simpl. intros _. split; [reflexivity|]. by exists info.
Qed.

(** A user that is not a dict is returned but not remembered: the next
    lookup of the identifier asks the platform again. *)
Theorem lookup_username_not_remembered
    (userid : string) self tr (v : pyval) self' tr' (env' : Env) tr2 :
  known_users self !! userid = None ->
  lookup_username env userid self tr = (Ret v, self', tr') ->
  is_dict v = false ->
  self' = self
  /\ api_methods (lookup_username env' userid self' tr2).2
     = api_methods tr2 ++ ["users.info"].
Proof.
  intros Hmiss Hfirst Hdict.
  rewrite lookup_username_eq, Hmiss in Hfirst. cbv zeta in Hfirst.
  destruct (slack_web_client env tr "users.info" "GET" None
              (Some {[ "user" := PStr userid ]})) as [response|err];
    [|discriminate].
  destruct (py_getitem response "user") as [info|err]; [|discriminate].
  injection Hfirst as -> <- <-. rewrite Hdict. split; [reflexivity|].
  rewrite lookup_username_eq, Hmiss. cbv zeta.
  destruct (slack_web_client env' tr2 "users.info" "GET" None
              (Some {[ "user" := PStr userid ]})) as [response'|err];
    [destruct (py_getitem response' "user")|]; simpl;
    rewrite api_methods_app; reflexivity.
Qed.

(** A failed lookup raises what the platform call or the subscript of its
    answer raised, and leaves the cache as it was. *)
Theorem lookup_username_failure (userid : string) self tr (err : exn) :
  (lookup_username env userid self tr).1.1 = Raise err ->
  (lookup_username env userid self tr).1.2 = self
  /\ known_users self !! userid = None
  /\ (slack_web_client env tr "users.info" "GET" None
        (Some {[ "user" := PStr userid ]}) = Raise err
      \/ exists response,
           slack_web_client env tr "users.info" "GET" None
             (Some {[ "user" := PStr userid ]}) = Ret response
           /\ py_getitem response "user" = Raise err).
Proof.
  rewrite lookup_username_eq.
  destruct (known_users self !! userid) as [cached|]; [done|]. cbv zeta.
  destruct (slack_web_client env tr "users.info" "GET" None
              (Some {[ "user" := PStr userid ]})) as [response|err'].
  - destruct (py_getitem response "user") as [info|err'] eqn:Huser; [done|].
    simpl. intros [= ->]. repeat split. right. by exists response.
  - simpl. intros [= ->]. repeat split. by left.
Qed.

End LookupMore.

Lemma lookup_username_miss_witness :
  exists self',
    lookup_username slack_env "U1" (fresh false) []
    = (Ret (PDict slack_user), self', looked_up_calls)
    /\ known_users self' !! "U1" = Some (PDict slack_user)
    /\ (forall other, other <> "U1" ->
        known_users self' !! other = known_users (fresh false) !! other)
    /\ same_but_cache (fresh false) self'.
Proof.
  apply (lookup_username_miss slack_env "U1" (fresh false) []
           (PDict {[ "ok" := PInt 1; "user" := PDict slack_user ]}) slack_user).
  - reflexivity.
  - reflexivity.
  - reflexivity.
Defined.

Lemma lookup_username_writes_witness :
  known_users (fresh false) !! "U1" = None
  /\ exists info : gmap string pyval,
       (lookup_username slack_env "U1" (fresh false) []).1.1 = Ret (PDict info)
       /\ (lookup_username slack_env "U1" (fresh false) []).1.2
          = set_known_user "U1" (PDict info) (fresh false).
Proof.
  apply (lookup_username_writes slack_env "U1" (fresh false) []).
  vm_compute. discriminate.
Defined.

Lemma lookup_username_not_remembered_witness :
  fresh false = fresh false
  /\ api_methods (lookup_username slack_env "U1" (fresh false) looked_up_calls).2
     = api_methods looked_up_calls ++ ["users.info"].
Proof.
  apply (lookup_username_not_remembered odd_user_env "U1" (fresh false) []
           (PStr "U1") (fresh false) looked_up_calls slack_env looked_up_calls).
  - reflexivity.
  - reflexivity.
  - reflexivity.
Defined.

Lemma lookup_username_failure_witness :
  (lookup_username (rejecting_env "user_not_found") "U1" (fresh false) []).1.2
  = fresh false
  /\ known_users (fresh false) !! "U1" = None
  /\ (slack_web_client (rejecting_env "user_not_found") [] "users.info" "GET"
        None (Some {[ "user" := PStr "U1" ]})
      = Raise (SlackApiError "user_not_found")
      \/ exists response,
           slack_web_client (rejecting_env "user_not_found") [] "users.info"
             "GET" None (Some {[ "user" := PStr "U1" ]}) = Ret response
           /\ py_getitem response "user" = Raise (SlackApiError "user_not_found")).
Proof.
  apply (lookup_username_failure (rejecting_env "user_not_found") "U1"
           (fresh false) [] (SlackApiError "user_not_found")).
  reflexivity.
Defined.

(** ** More on [replace_usernames] *)

Lemma list_ascii_of_string_app (a b : string) :
  list_ascii_of_string (a +:+ b)
  = list_ascii_of_string a ++ list_ascii_of_string b.
Proof. induction a as [|c a IH]; simpl; by rewrite ?IH. Qed.

Lemma string_of_list_ascii_app (a b : list ascii) :
  string_of_list_ascii (a ++ b)
  = string_of_list_ascii a +:+ string_of_list_ascii b.
Proof. induction a as [|c a IH]; simpl; by rewrite ?IH. Qed.

(** What [X+] consumed when the match went on: a non-empty run of [X]. *)
Lemma plus_set_inv {R} (p : ascii -> bool) (s : list ascii)
    (k : list ascii -> option R) (r : R) :
  plus_set p s k = Some r ->
  exists run s',
    s = run ++ s' /\ run <> [] /\ Forall (fun c => p c = true) run
    /\ k s' = Some r.
Proof.
  induction s as [|c s IH]; simpl; [discriminate|].
  destruct (p c) eqn:Hc; [|discriminate].
  destruct (plus_set p s k) as [r'|] eqn:Hmore.
  - intros [= ->]. destruct (IH eq_refl) as (run & s' & -> & _ & Hrun & Hk).
    exists (c :: run), s'. repeat split; [discriminate|by constructor|exact Hk].
  - intros Hk. exists [c], s. repeat split; [discriminate| |exact Hk].
    by repeat constructor.
Qed.

(** [X+] takes a whole run of [X] when the rest of the pattern accepts what
    follows the run. *)
Lemma plus_set_greedy {R} (p : ascii -> bool) (run rest : list ascii)
    (k : list ascii -> option R) (r : R) :
  run <> [] ->
  Forall (fun c => p c = true) run ->
  (forall c rest', rest = c :: rest' -> p c = false) ->
  k rest = Some r ->
  plus_set p (run ++ rest) k = Some r.
Proof.
  intros Hne Hrun Hstop Hk.
  induction Hrun as [|c run Hc Hrun IH]; [done|].
  simpl. rewrite Hc. destruct run as [|c' run].
  - simpl. destruct rest as [|c' rest']; simpl; [exact Hk|].
    by rewrite (Hstop c' rest' eq_refl).
  - by rewrite IH.
Qed.

(** A match of the mention pattern starts with ["<@"], and its group is a
    non-empty run of [[A-Z0-9]]. *)
Lemma match_at_mention_inv (s g : list ascii) (n : nat) :
  match_at mention_re s = Some (g, n) ->
  g <> [] /\ Forall (fun c => upper_or_digit c = true) g
  /\ exists rest, s = "<"%char :: "@"%char :: g ++ rest.
Proof.
  unfold match_at, mention_re. simpl.
  destruct s as [|c0 s]; [discriminate|].
  destruct (decide ("<"%char = c0)) as [<-|]; [|discriminate].
  destruct s as [|c1 s]; [discriminate|].
  destruct (decide ("@"%char = c1)) as [<-|]; [|discriminate].
  intros Hmatch. apply plus_set_inv in Hmatch
    as (run & s' & -> & Hne & Hrun & Hrest).
  assert (Hg : take (List.length (run ++ s') - List.length s') (run ++ s') = run).
  { rewrite length_app.
    replace (List.length run + List.length s' - List.length s')
      with (List.length run) by lia.
    apply take_app_length. }
  rewrite Hg in Hrest.
  assert (g = run) as ->; [|by eauto].
  destruct s' as [|c2 s']; [discriminate|].
  destruct (decide ("|"%char = c2)) as [<-|].
  - destruct (plus_set not_newline s' _) as [r|] eqn:Hhint.
    + apply plus_set_inv in Hhint as (_ & s2 & _ & _ & _ & Hend).
      destruct s2 as [|c3 s2]; [discriminate|].
      destruct (decide (">"%char = c3)); [|discriminate].
      by simplify_eq.
    + destruct (decide (">"%char = "|"%char)); [discriminate|discriminate].
  - destruct (decide (">"%char = c2)); [|discriminate]. by simplify_eq.
Qed.

Lemma findall_mention_shape (s : list ascii) (skip : nat) (g : list ascii) :
  g ∈ findall_from mention_re skip s ->
  g <> [] /\ Forall (fun c => upper_or_digit c = true) g.
Proof.
  revert skip. induction s as [|c s IH]; intros skip; simpl.
  - by intros ?%elem_of_nil.
  - destruct skip as [|k]; [|apply IH].
    destruct (match_at mention_re (c :: s)) as [[g' n]|] eqn:Hmatch;
      [|apply IH].
    intros [->|Hin]%elem_of_cons; [|by eapply IH].
    apply match_at_mention_inv in Hmatch as (? & ? & _). by split.
Qed.

(** The identifiers [replace_usernames] looks up are never empty and consist
    of capital letters and digits only, whatever the text. *)
Theorem mentions_are_identifiers (message userid : string) :
  userid ∈ re_findall mention_re message ->
  userid <> empty_str
  /\ Forall (fun c => upper_or_digit c = true) (list_ascii_of_string userid).
Proof.
  unfold re_findall. intros (g & -> & Hin)%list_elem_of_fmap.
  apply findall_mention_shape in Hin as [Hne Hrun].
  rewrite list_ascii_of_string_of_list_ascii. split; [|exact Hrun].
  destruct g; [done|discriminate].
Qed.

Lemma mentions_are_identifiers_witness :
  "U01NK1K9L68" <> empty_str
  /\ Forall (fun c => upper_or_digit c = true)
       (list_ascii_of_string "U01NK1K9L68").
Proof.
  apply (mentions_are_identifiers "hello <@U01NK1K9L68|bob>" "U01NK1K9L68").
  vm_compute. apply list_elem_of_here.
Defined.

(** The pattern at a plain mention: it matches the token and captures the
    identifier. *)
Lemma match_at_mention (g rest : list ascii) :
  g <> [] -> Forall (fun c => upper_or_digit c = true) g ->
  match_at mention_re ("<"%char :: "@"%char :: g ++ ">"%char :: rest)
  = Some (g, List.length g + 3).
Proof.
  intros Hne Hrun. unfold match_at, mention_re. simpl.
  apply plus_set_greedy; [exact Hne|exact Hrun|by intros ? ? [= <- _]|].
  simpl.
  replace (take (List.length (g ++ ">"%char :: rest) - S (List.length rest))
             (g ++ ">"%char :: rest)) with g.
  2: { rewrite length_app. simpl.
       replace (List.length g + S (List.length rest) - S (List.length rest))
         with (List.length g) by lia.
       by rewrite take_app_length. }
  rewrite length_app. simpl. do 2 f_equal. lia.
Qed.

(** Scanning skips what a match consumed, and passes over text without
    ["<"]. *)
Lemma findall_from_skip (r : regex) (a b : list ascii) :
  findall_from r (List.length a) (a ++ b) = findall_from r 0 b.
Proof. induction a as [|c a IH]; [reflexivity|exact IH]. Qed.

Lemma findall_mention_pass (a b : list ascii) :
  "<"%char ∉ a ->
  findall_from mention_re 0 (a ++ b) = findall_from mention_re 0 b.
Proof.
  induction a as [|c a IH]; [reflexivity|].
  intros [Hc Ha]%not_elem_of_cons. simpl.
  unfold match_at. simpl. rewrite decide_False by congruence. by apply IH.
Qed.

Lemma findall_from_match (r : regex) (c : ascii) (s g : list ascii) (n : nat) :
  match_at r (c :: s) = Some (g, n) ->
  findall_from r 0 (c :: s) = g :: findall_from r (Nat.pred n) s.
Proof. intros Hmatch. simpl. by rewrite Hmatch. Qed.

(** A text with one plain mention between texts without ["<"]: the scan
    finds the identifier and nothing else. *)
Lemma findall_single_mention (a g b : list ascii) :
  "<"%char ∉ a -> "<"%char ∉ b ->
  g <> [] -> Forall (fun c => upper_or_digit c = true) g ->
  findall_from mention_re 0 (a ++ "<"%char :: "@"%char :: g ++ ">"%char :: b)
  = [g].
Proof.
  intros Ha Hb Hne Hrun. rewrite findall_mention_pass by exact Ha.
  rewrite (findall_from_match _ _ _ g (List.length g + 3))
    by (by apply match_at_mention).
  f_equal.
  replace (Nat.pred (List.length g + 3))
    with (List.length ("@"%char :: g ++ [">"%char]))
    by (simpl; rewrite length_app; simpl; lia).
  replace ("@"%char :: g ++ ">"%char :: b)
    with (("@"%char :: g ++ [">"%char]) ++ b)
    by (simpl; by rewrite <- app_assoc).
  rewrite findall_from_skip. by apply findall_mention_none.
Qed.

Lemma starts_with_app (t b : list ascii) : starts_with t (t ++ b) = true.
Proof. induction t as [|c t IH]; simpl; [done|]. by rewrite decide_True. Qed.

Lemma replace_from_skip (old new a b : list ascii) :
  replace_from old new (List.length a) (a ++ b) = replace_from old new 0 b.
Proof. induction a as [|c a IH]; [reflexivity|exact IH]. Qed.

Lemma replace_from_pass (c0 : ascii) (t new a b : list ascii) :
  c0 ∉ a ->
  replace_from (c0 :: t) new 0 (a ++ b) = a ++ replace_from (c0 :: t) new 0 b.
Proof.
  induction a as [|c a IH]; [reflexivity|].
  intros [Hc Ha]%not_elem_of_cons. simpl.
  rewrite decide_False by congruence. by rewrite <- IH.
Qed.

Lemma replace_from_here (c0 : ascii) (t new b : list ascii) :
  replace_from (c0 :: t) new 0 ((c0 :: t) ++ b)
  = new ++ replace_from (c0 :: t) new 0 b.
Proof.
  cbn [replace_from app]. cbn [starts_with].
  rewrite decide_True by reflexivity. rewrite starts_with_app.
  f_equal. exact (replace_from_skip (c0 :: t) new t b).
Qed.

Section ReplaceMore.

Context (env : Env) (before userid after : string).

Hypothesis before_plain : "<"%char ∉ list_ascii_of_string before.
Hypothesis after_plain : "<"%char ∉ list_ascii_of_string after.
Hypothesis userid_filled : userid <> empty_str.
Hypothesis userid_plain :
  Forall (fun c => upper_or_digit c = true) (list_ascii_of_string userid).

Lemma around_chars :
  list_ascii_of_string (around before userid after)
  = list_ascii_of_string before
    ++ "<"%char :: "@"%char :: list_ascii_of_string userid
    ++ ">"%char :: list_ascii_of_string after.
Proof.
  unfold around, mention_token. rewrite !list_ascii_of_string_app. simpl.
  by rewrite <- app_assoc.
Qed.

Lemma around_mentions : re_findall mention_re (around before userid after) = [userid].
Proof.
  unfold re_findall. rewrite around_chars, findall_single_mention; try done.
  - simpl. by rewrite string_of_list_ascii_of_string.
  - destruct userid; [done|discriminate].
Qed.

Lemma around_replaced (new : string) :
  str_replace (mention_token userid) new (around before userid after)
  = before +:+ new +:+ after.
Proof.
  unfold str_replace. rewrite around_chars.
  unfold mention_token. rewrite !list_ascii_of_string_app. simpl.
  rewrite replace_from_pass by exact before_plain.
  replace ("<"%char :: "@"%char :: list_ascii_of_string userid
           ++ ">"%char :: list_ascii_of_string after)
    with (("<"%char :: "@"%char :: list_ascii_of_string userid ++ [">"%char])
          ++ list_ascii_of_string after)
    by (simpl; by rewrite <- app_assoc).
  rewrite replace_from_here.
  rewrite <- (app_nil_r (list_ascii_of_string after)) at 1.
  rewrite replace_from_pass by exact after_plain. simpl. rewrite app_nil_r.
  by rewrite !string_of_list_ascii_app, !string_of_list_ascii_of_string.
Qed.

(** On such a text the loop runs once, for [userid]. *)
Lemma replace_usernames_around self tr :
  replace_usernames env (around before userid after) self tr
  = bind (replace_one env userid (around before userid after)) ret self tr.
Proof. unfold replace_usernames. rewrite around_mentions. reflexivity. Qed.

(** A plain mention of a cached user, in a text that has no other ["<"], is
    replaced by the user's name; no call is made. *)
Theorem replace_usernames_cached self tr (info : pyval) (name : string) :
  known_users self !! userid = Some info ->
  py_getitem info "name" = Ret (PStr name) ->
  replace_usernames env (around before userid after) self tr
  = (Ret (before +:+ name +:+ after), self, tr).
Proof.
  intros Hknown Hname. rewrite replace_usernames_around.
  unfold replace_one, bind at 1, bind at 1.
  rewrite lookup_username_eq, Hknown.
  unfold bind, lift, ret. rewrite Hname. by rewrite around_replaced.
Qed.

(** A plain mention of a user not yet cached: the user is fetched with one
    [users.info] call, stored, and the mention replaced by the name. *)
Theorem replace_usernames_fetched
    self tr (response : pyval) (info : gmap string pyval) (name : string) :
  known_users self !! userid = None ->
  slack_web_client env tr "users.info" "GET" None
    (Some {[ "user" := PStr userid ]}) = Ret response ->
  py_getitem response "user" = Ret (PDict info) ->
  info !! "name" = Some (PStr name) ->
  replace_usernames env (around before userid after) self tr
  = (Ret (before +:+ name +:+ after),
     set_known_user userid (PDict info) self,
     tr ++ [ApiCall "users.info" "GET" None (Some {[ "user" := PStr userid ]})]).
Proof.
  intros Hmiss Hcall Huser Hname. rewrite replace_usernames_around.
  unfold replace_one, bind at 1, bind at 1.
  rewrite lookup_username_eq, Hmiss. cbv zeta. rewrite Hcall, Huser.
  unfold bind, lift, ret. simpl. rewrite Hname. by rewrite around_replaced.
Qed.

(** A mention that cannot be resolved aborts the substitution: when the
    lookup raises, [replace_usernames] raises the same; when the user has no
    [name], it raises [KeyError]; in neither case is a text returned. *)
Theorem replace_usernames_unresolved self tr :
  (forall err self' tr',
     lookup_username env userid self tr = (Raise err, self', tr') ->
     replace_usernames env (around before userid after) self tr
     = (Raise err, self', tr'))
  /\ (forall info : gmap string pyval,
        known_users self !! userid = Some (PDict info) ->
        info !! "name" = None ->
        replace_usernames env (around before userid after) self tr
        = (Raise (KeyError "name"), self, tr)).
Proof.
  split.
  - intros err self' tr' Hlookup. rewrite replace_usernames_around.
    unfold replace_one, bind at 1, bind at 1. by rewrite Hlookup.
  - intros info Hknown Hname. rewrite replace_usernames_around.
    unfold replace_one, bind at 1, bind at 1.
    rewrite lookup_username_eq, Hknown.
    unfold bind, lift. simpl. by rewrite Hname.
Qed.

End ReplaceMore.

Lemma replace_usernames_cached_witness :
  replace_usernames quiet_env (around "hello " "U1" ", welcome") with_test_user []
  = (Ret ("hello " +:+ "Test User" +:+ ", welcome"), with_test_user, []).
Proof.
  apply (replace_usernames_cached quiet_env "hello " "U1" ", welcome"
           ltac:(by apply (bool_decide_unpack _))
           ltac:(by apply (bool_decide_unpack _))
           ltac:(discriminate) ltac:(repeat constructor)
           with_test_user [] (PDict {[ "name" := PStr "Test User" ]})).
  - reflexivity.
  - reflexivity.
Defined.

Lemma replace_usernames_fetched_witness :
  replace_usernames named_env (around "hello " "U1" ", welcome") (fresh false) []
  = (Ret ("hello " +:+ "Test User" +:+ ", welcome"),
     set_known_user "U1" (PDict named_user) (fresh false),
     [] ++ [ApiCall "users.info" "GET" None (Some {[ "user" := PStr "U1" ]})]).
Proof.
  apply (replace_usernames_fetched named_env "hello " "U1" ", welcome"
           ltac:(by apply (bool_decide_unpack _))
           ltac:(by apply (bool_decide_unpack _))
           ltac:(discriminate) ltac:(repeat constructor)
           (fresh false) []
           (PDict {[ "ok" := PInt 1; "user" := PDict named_user ]})).
  - reflexivity.
  - reflexivity.
  - reflexivity.
  - reflexivity.
Defined.

Lemma replace_usernames_unresolved_witness :
  replace_usernames (rejecting_env "user_not_found")
    (around "hello " "U1" ", welcome") (fresh false) []
  = (Raise (SlackApiError "user_not_found"), fresh false, looked_up_calls)
  /\ replace_usernames quiet_env (around "hello " "U1" ", welcome")
       with_nameless_user []
     = (Raise (KeyError "name"), with_nameless_user, []).
Proof.
  split.
  - apply (proj1 (replace_usernames_unresolved (rejecting_env "user_not_found")
                    "hello " "U1" ", welcome"
                    ltac:(by apply (bool_decide_unpack _))
                    ltac:(by apply (bool_decide_unpack _))
                    ltac:(discriminate) ltac:(repeat constructor)
                    (fresh false) [])).
    reflexivity.
  - apply (proj2 (replace_usernames_unresolved quiet_env
                    "hello " "U1" ", welcome"
                    ltac:(by apply (bool_decide_unpack _))
                    ltac:(by apply (bool_decide_unpack _))
                    ltac:(discriminate) ltac:(repeat constructor)
                    with_nameless_user []) {[ "id" := PStr "U1" ]}).
    + reflexivity.
    + reflexivity.
Defined.

Lemma replace_usernames_no_mention_witness :
  replace_usernames failing_parse_env "hello > world" (fresh false) []
  = (Ret "hello > world", fresh false, []).
Proof.
  apply (replace_usernames_no_mention failing_parse_env "hello > world").
  by apply (bool_decide_unpack _).
Defined.

(** ** Overlapping lookups *)

(** A lookup is its membership test, and on a miss the request followed by
    what the resumed coroutine does with the answer. *)
Lemma lookup_username_split env (userid : string) self tr :
  lookup_username env userid self tr
  = match known_users self !! userid with
    | Some info => (Ret info, self, tr)
    | None =>
        lookup_username_resume userid
          (slack_web_client env tr "users.info" "GET" None
             (Some {[ "user" := PStr userid ]}))
          self (tr ++ [users_info_call userid])
    end.
Proof.
  unfold lookup_username, lookup_username_resume, users_info, api_call, bind at 1,
    get_self at 1.
  destruct (known_users self !! userid) as [info|]; [reflexivity|].
  unfold bind at 1, call, bind at 3, lift at 2. unfold users_info_call.
  by destruct (slack_web_client env tr "users.info" "GET" None
                 (Some {[ "user" := PStr userid ]})).
Qed.

(** A lookup that nothing overlaps is a [Begin] directly followed by its
    [Resume]. *)
Lemma lookup_as_steps env (userid : string) self waiting tr :
  known_users self !! userid = None ->
  interleave
    [Begin userid;
     Resume userid (slack_web_client env tr "users.info" "GET" None
                      (Some {[ "user" := PStr userid ]}))]
    self waiting tr
  = Some ((lookup_username env userid self tr).1.2, waiting,
          (lookup_username env userid self tr).2).
Proof.
  intros Hmiss. rewrite lookup_username_split, Hmiss. simpl. rewrite Hmiss.
  simpl. rewrite decide_True by reflexivity.
  by destruct (lookup_username_resume userid _ self _) as [[? ?] ?].
Qed.

(** What a resumed lookup leaves of the instance: the instance itself, or
    the instance with the answer stored under the identifier. *)
Lemma lookup_username_resume_instance
    (userid : string) (answer : outcome pyval) self tr :
  (lookup_username_resume userid answer self tr).1.2 = self
  \/ exists info : gmap string pyval,
       (lookup_username_resume userid answer self tr).1.2
       = set_known_user userid (PDict info) self.
Proof.
  unfold lookup_username_resume, bind, lift, set_self, ret.
  destruct answer as [response|err]; [|by left].
  destruct (py_getitem response "user") as [[| | | |info]|err]; simpl;
    try (by left).
  right. by exists info.
Qed.

(** One step keeps every identifier of the cache, and keeps its value unless
    the step resumes a lookup of that identifier. *)
Lemma act_kept (a : action) self waiting tr self' waiting' tr' :
  act a self waiting tr = Some (self', waiting', tr') ->
  (forall userid,
     is_Some (known_users self !! userid) ->
     is_Some (known_users self' !! userid))
  /\ (forall userid v,
        known_users self !! userid = Some v ->
        (forall answer, a <> Resume userid answer) ->
        known_users self' !! userid = Some v).
Proof.
  destruct a as [userid'|userid' answer|env o]; simpl.
  - destruct (known_users self !! userid'); intros [= <- _ _]; by split.
  - destruct (remove_first userid' waiting) as [waiting1|]; [|discriminate].
    pose proof (lookup_username_resume_instance userid' answer self tr) as Hself.
    destruct (lookup_username_resume userid' answer self tr) as [[o self1] tr1].
    simpl in Hself. intros [= <- _ _].
    destruct Hself as [->|[info ->]]; [by split|]. simpl. split.
    + intros userid Hsome. rewrite lookup_insert_is_Some.
      destruct (decide (userid' = userid)); [by left|by right].
    + intros userid v Hknown Hother. rewrite lookup_insert_ne; [exact Hknown|].
      intros ->. by apply (Hother answer).
  - pose proof (run_op_known_users env o self tr) as Hsub.
    destruct (run_op env o self tr) as [self1 tr1]. simpl in Hsub.
    intros [= <- _ _]. split.
    + intros userid [v Hknown]. exists v. by eapply lookup_weaken.
    + intros userid v Hknown _. by eapply lookup_weaken.
Qed.


(** Through a run in which no suspended lookup of an identifier is resumed,
    the value cached under it stays. *)
Lemma interleave_value
    (schedule : list action) self waiting tr self' waiting' tr' :
  interleave schedule self waiting tr = Some (self', waiting', tr') ->
  forall userid v,
    known_users self !! userid = Some v ->
    (forall answer, Resume userid answer ∉ schedule) ->
    known_users self' !! userid = Some v.
Proof.
  revert self waiting tr.
  induction schedule as [|a schedule IH]; intros self waiting tr; simpl.
  - by intros [= <- _ _].
  - destruct (act a self waiting tr) as [[[self1 waiting1] tr1]|] eqn:Hact;
      [|discriminate].
    intros Hrest userid v Hknown Hnone. apply act_kept in Hact as [_ Hval1].
    eapply IH; [exact Hrest| |].
    + apply Hval1; [exact Hknown|]. intros answer ->.
      apply (Hnone answer). apply list_elem_of_here.
    + intros answer Hin. apply (Hnone answer). by apply list_elem_of_further.
Qed.




(** ** Substituting again *)

Section ReplaceAgain.

(** A round of the loop that returns a text leaves the user cached, with the
    name it used. *)
Lemma replace_one_ret env (userid message : string) self tr text self' tr' :
  replace_one env userid message self tr = (Ret text, self', tr') ->
  known_users self ⊆ known_users self'
  /\ exists (info : gmap string pyval) (new : string),
       known_users self' !! userid = Some (PDict info)
       /\ info !! "name" = Some (PStr new)
       /\ text = str_replace (mention_token userid) new message.
Proof.
  unfold replace_one, bind at 1. rewrite lookup_username_eq.
  destruct (known_users self !! userid) as [cached|] eqn:Hknown.
  - unfold bind, lift. destruct cached as [| | | |info]; try discriminate.
    simpl. destruct (info !! "name") as [[| |new| |]|] eqn:Hname;
      try discriminate.
    intros [= <- <- <-]. split; [done|]. by exists info, new.
  - cbv zeta.
    destruct (slack_web_client env tr "users.info" "GET" None
                (Some {[ "user" := PStr userid ]})) as [response|err];
      [|discriminate].
    destruct (py_getitem response "user") as [[| | | |info]|err];
      try discriminate.
    unfold bind, lift. simpl.
    destruct (info !! "name") as [[| |new| |]|] eqn:Hname; try discriminate.
    intros [= <- <- <-]. split; [by apply insert_subseteq|].
    exists info, new. simpl. by rewrite lookup_insert_eq.
Qed.

Lemma replace_one_hit env (userid message : string) self tr
    (info : gmap string pyval) (new : string) :
  known_users self !! userid = Some (PDict info) ->
  info !! "name" = Some (PStr new) ->
  replace_one env userid message self tr
  = (Ret (str_replace (mention_token userid) new message), self, tr).
Proof.
  intros Hknown Hname. unfold replace_one, bind at 1.
  rewrite lookup_username_eq, Hknown. unfold bind, lift. simpl.
  by rewrite Hname.
Qed.

Lemma replace_loop_again env (ids : list string) :
  forall (message : string) self tr text self' tr',
    for_each ids message (replace_one env) self tr = (Ret text, self', tr') ->
    known_users self ⊆ known_users self'
    /\ forall env' self2 tr2,
         known_users self' ⊆ known_users self2 ->
         for_each ids message (replace_one env') self2 tr2
         = (Ret text, self2, tr2).
Proof.
  induction ids as [|userid ids IH]; intros message self tr text self' tr'.
  - simpl. intros [= <- <- <-]. done.
  - simpl. unfold bind at 1.
    destruct (replace_one env userid message self tr)
      as [[[text1|err] self1] tr1] eqn:Hone; [|discriminate].
    intros Hrest.
    apply replace_one_ret in Hone as (Hgrow1 & info & new & Hknown & Hname & ->).
    apply IH in Hrest as [Hgrow2 Hreplay].
    split; [by etransitivity|].
    intros env' self2 tr2 Hsub. unfold bind at 1.
    rewrite (replace_one_hit env' userid message self2 tr2 info new); [|
      |exact Hname].
    + by apply Hreplay.
    + eapply lookup_weaken; [exact Hknown|]. by etransitivity.
Qed.

(** The loop again, on an instance that agrees with the one the loop left
    on the identifiers of the loop. *)
Lemma replace_loop_replay env (ids : list string) :
  forall (message : string) self tr text self' tr',
    for_each ids message (replace_one env) self tr = (Ret text, self', tr') ->
    forall env' self2 tr2,
      (forall userid v,
         userid ∈ ids -> known_users self' !! userid = Some v ->
         known_users self2 !! userid = Some v) ->
      for_each ids message (replace_one env') self2 tr2 = (Ret text, self2, tr2).
Proof.
  induction ids as [|userid ids IH]; intros message self tr text self' tr'.
  - simpl. by intros [= <- <- <-].
  - simpl. unfold bind at 1.
    destruct (replace_one env userid message self tr)
      as [[[text1|err] self1] tr1] eqn:Hone; [|discriminate].
    intros Hrest env' self2 tr2 Hagree.
    apply replace_one_ret in Hone as (_ & info & new & Hknown & Hname & ->).
    pose proof (replace_loop_again _ _ _ _ _ _ _ _ Hrest) as [Hgrow _].
    unfold bind at 1.
    rewrite (replace_one_hit env' userid message self2 tr2 info new); [|
      |exact Hname].
    + eapply IH; [exact Hrest|]. intros userid' v Hin.
      apply Hagree. by apply list_elem_of_further.
    + apply Hagree; [apply list_elem_of_here|].
      by eapply lookup_weaken.
Qed.

(** Once [replace_usernames], run with nothing in between, has returned a
    text for a message, doing it again for the same message returns the same
    text without any call and without touching the instance, whatever the
    platform answers by then and after any run of the connector, overlapping
    lookups included, in which no suspended lookup of an identifier mentioned
    in the message was resumed. *)
Theorem replace_usernames_again
    env (message text : string) self tr self' tr' :
  replace_usernames env message self tr = (Ret text, self', tr') ->
  forall (schedule : list action) waiting self2 waiting2 tr2 (env' : Env),
    interleave schedule self' waiting tr' = Some (self2, waiting2, tr2) ->
    (forall userid answer,
       userid ∈ re_findall mention_re message ->
       Resume userid answer ∉ schedule) ->
    replace_usernames env' message self2 tr2 = (Ret text, self2, tr2).
Proof.
  intros Hfirst schedule waiting self2 waiting2 tr2 env' Hrun Hnone.
  apply (replace_loop_replay env (re_findall mention_re message) message
           self tr text self' tr' Hfirst).
  intros userid v Hin Hknown.
  apply (interleave_value schedule self' waiting tr' self2 waiting2 tr2 Hrun
           userid v Hknown).
  intros answer. by apply Hnone.
Qed.

End ReplaceAgain.

Lemma replace_usernames_again_witness :
  match interleave around_connect
          (set_known_user "U1" (PDict named_user) (fresh false)) []
          looked_up_calls with
  | Some (self2, _, tr2) =>
      replace_usernames (rejecting_env "ratelimited") "hello <@U1>" self2 tr2
      = (Ret "hello Test User", self2, tr2)
  | None => False
  end.
Proof.
  destruct (interleave around_connect
              (set_known_user "U1" (PDict named_user) (fresh false)) []
              looked_up_calls) as [[[self2 waiting2] tr2]|] eqn:Hrun.
  - apply (replace_usernames_again named_env "hello <@U1>" "hello Test User"
             (fresh false) []
             (set_known_user "U1" (PDict named_user) (fresh false))
             looked_up_calls ltac:(vm_compute; reflexivity)
             around_connect [] self2 waiting2 tr2
             (rejecting_env "ratelimited") Hrun).
    intros userid answer Hin Hresume.
    apply list_elem_of_singleton in Hin as ->.
    unfold around_connect in Hresume.
    rewrite !elem_of_cons, elem_of_nil in Hresume.
    destruct Hresume as [|[|[|[|[]]]]]; discriminate.
  - vm_compute in Hrun. discriminate.
Defined.

(** ** More on the outbound handlers *)

Section SendMore.

Context (env : Env).

(** Every outgoing event that carries what its handler reads makes exactly
    one platform call, to the operation of its class. *)
Theorem send_one_operation (event : Event) self tr :
  well_linked event = true ->
  api_methods (send env event self tr).2 = api_methods tr ++ [operation_of event].
Proof.
  intros Hlinked.
  destruct event as [text target [[id [raw|]]|]|text target ts|blocks target
                    |blocks target ts|emoji target [le|]|name|name target|target
                    |user user_id target|description target|target [le|]
                    |target [le|]];
    try discriminate; simpl;
    unfold _send_message, link_thread, _edit_message, _send_blocks, _edit_blocks,
      send_reaction, linked_event_id, _send_room_creation, _send_room_name_set,
      _send_join_room, _send_user_invitation, _send_room_description,
      _send_pin_message, _send_unpin_message, try_except_SlackApiError,
      bind, get_self, log, api_call, call, ret, raise; simpl;
    repeat case_match; simpl; simplify_eq/=;
    rewrite ?api_methods_app; simpl; by rewrite ?app_nil_r.
Qed.

(** Except for reactions, what the platform call returns or raises is what
    [send] returns or raises, and the instance is left alone. *)
Theorem send_raw_response (event : Event) self tr :
  well_linked event = true ->
  is_reaction event = false ->
  exists (tr1 : list io) (data : gmap string pyval),
    send env event self tr
    = (slack_web_client env tr1 (operation_of event) "POST" (Some data) None,
       self, tr1 ++ [ApiCall (operation_of event) "POST" (Some data) None])
    /\ api_methods tr1 = api_methods tr.
Proof.
  intros Hlinked Hreaction.
  destruct event as [text target [[id [raw|]]|]|text target ts|blocks target
                    |blocks target ts|emoji target [le|]|name|name target|target
                    |user user_id target|description target|target [le|]
                    |target [le|]];
    try discriminate; simpl;
    unfold _send_message, link_thread, _edit_message, _send_blocks, _edit_blocks,
      linked_event_id, _send_room_creation, _send_room_name_set,
      _send_join_room, _send_user_invitation, _send_room_description,
      _send_pin_message, _send_unpin_message,
      bind, get_self, log, api_call, call, ret, raise; simpl;
    repeat case_match; simplify_eq/=;
    eexists _, _; (split; [reflexivity|]);
    rewrite ?api_methods_app; simpl; by rewrite ?app_nil_r.
Qed.

(** An event that lacks what its handler reads makes no platform call:
    [send] raises instead, [AttributeError] for a reaction, pin or unpin
    without linked event, [TypeError] for a message whose linked event has no
    raw payload. *)
Theorem send_unlinked (event : Event) self tr :
  well_linked event = false ->
  api_methods (send env event self tr).2 = api_methods tr
  /\ (send env event self tr).1
     = (Raise (match event with
               | Message _ _ _ => TypeError
               | _ => AttributeError
               end), self).
Proof.
  intros Hlinked.
  destruct event as [text target [[id [raw|]]|]|text target ts|blocks target
                    |blocks target ts|emoji target [le|]|name|name target|target
                    |user user_id target|description target|target [le|]
                    |target [le|]];
    try discriminate; simpl in *;
    try (by rewrite bool_decide_eq_true_2 in Hlinked by eauto);
    (split; [|reflexivity]);
    unfold send_reaction, try_except_SlackApiError, bind, log, call; simpl;
    rewrite ?api_methods_app; simpl; by rewrite ?app_nil_r.
Qed.

End SendMore.

Lemma send_one_operation_witness :
  api_methods (send (rejecting_env "channel_not_found") reply (fresh true) []).2
  = api_methods [] ++ [operation_of reply].
Proof.
  apply (send_one_operation (rejecting_env "channel_not_found") reply
           (fresh true) []).
  reflexivity.
Defined.

Lemma send_raw_response_witness :
  exists (tr1 : list io) (data : gmap string pyval),
    send (rejecting_env "channel_not_found") reply (fresh true) []
    = (slack_web_client (rejecting_env "channel_not_found") tr1
         (operation_of reply) "POST" (Some data) None,
       fresh true, tr1 ++ [ApiCall (operation_of reply) "POST" (Some data) None])
    /\ api_methods tr1 = api_methods [].
Proof.
  apply (send_raw_response (rejecting_env "channel_not_found") reply
           (fresh true) []).
  - reflexivity.
  - reflexivity.
Defined.

Lemma send_unlinked_witness :
  api_methods (send quiet_env pin_nothing (fresh false) []).2 = api_methods []
  /\ (send quiet_env pin_nothing (fresh false) []).1
     = (Raise AttributeError, fresh false).
Proof.
  apply (send_unlinked quiet_env pin_nothing (fresh false) []).
  reflexivity.
Defined.

(** Removing a character leaves none of it. *)
Lemma replace_from_removes (c : ascii) (s : list ascii) :
  c ∉ replace_from [c] [] 0 s.
Proof.
  induction s as [|x s IH]; simpl; [apply not_elem_of_nil|].
  destruct (decide (c = x)) as [->|Hne]; [exact IH|].
  by apply not_elem_of_cons.
Qed.

(** The emoji name sent to [reactions.add] never contains a colon, whatever
    [demojize] produced; the call follows the debug line and names the
    channel and the linked event's id. *)
Theorem reaction_name_without_colon
    (env : Env) (emoji : string) (target : pyval) (le : linked) self tr :
  exists (name : string) (rest : list io),
    (send_reaction env emoji target (Some le) self tr).2
    = tr ++ [Log LDebug "Reacting with: %s.";
             ApiCall "reactions.add" "POST"
               (Some {[ "name" := PStr name; "channel" := target;
                        "timestamp" := event_id le ]}) None] ++ rest
    /\ (":"%char ∉ list_ascii_of_string name)
    /\ api_methods rest = [].
Proof.
  exists (str_replace ":" empty_str (demojize env emoji)).
  unfold send_reaction, try_except_SlackApiError, bind, log, linked_event_id,
    ret, raise, api_call, call. simpl.
  destruct (slack_web_client env _ "reactions.add" "POST" _ None)
    as [v|[text| | | |]];
    [exists []|destruct (str_contains "invalid_name" text);
               [eexists [_]|exists []]|exists []..];
    simpl; rewrite <- ?app_assoc; simpl;
    (split; [reflexivity|]);
    (split; [|reflexivity]);
    unfold str_replace; rewrite list_ascii_of_string_of_list_ascii;
    apply replace_from_removes.
Qed.

(** The parameters of the call of [_send_message]: the message's target and
    text, the instance's bot name and icon, and nothing else but a possible
    thread marker. *)
Theorem send_message_data
    (env : Env) (text target : pyval) (linked_event : option linked) self tr :
  well_linked (Message text target linked_event) = true ->
  exists data : gmap string pyval,
    (_send_message env text target linked_event self tr).2
    = tr ++ [Log LDebug "Responding with: '%s' in room  %s.";
             ApiCall "chat.postMessage" "POST" (Some data) None]
    /\ data !! "channel" = Some target
    /\ data !! "text" = Some text
    /\ data !! "username" = Some (PStr (bot_name self))
    /\ data !! "icon_emoji" = Some (PStr (icon_emoji self))
    /\ dom data ⊆ {[ "channel"; "text"; "username"; "icon_emoji"; "thread_ts" ]}.
Proof.
  intros Hlinked.
  unfold _send_message, link_thread, bind, get_self, log, api_call, call, ret.
  destruct linked_event as [[id [raw|]]|]; try discriminate; simpl;
    repeat case_match; simplify_eq/=;
    eexists; rewrite <- app_assoc; simpl;
    (split; [reflexivity|]);
    repeat split; try by simplify_map_eq.
  all: rewrite ?dom_insert_L, ?dom_singleton_L; apply elem_of_subseteq;
    intros k; rewrite !elem_of_union, !elem_of_singleton; tauto.
Qed.

Lemma send_message_data_witness :
  exists data : gmap string pyval,
    (_send_message quiet_env (PStr "test") (PStr "room") (Some thread_reply)
       (fresh true) []).2
    = [] ++ [Log LDebug "Responding with: '%s' in room  %s.";
             ApiCall "chat.postMessage" "POST" (Some data) None]
    /\ data !! "channel" = Some (PStr "room")
    /\ data !! "text" = Some (PStr "test")
    /\ data !! "username" = Some (PStr (bot_name (fresh true)))
    /\ data !! "icon_emoji" = Some (PStr (icon_emoji (fresh true)))
    /\ dom data ⊆ {[ "channel"; "text"; "username"; "icon_emoji"; "thread_ts" ]}.
Proof.
  apply (send_message_data quiet_env (PStr "test") (PStr "room")
           (Some thread_reply) (fresh true) []).
  reflexivity.
Defined.
